(** * Actor / critic composition of [chatgpt/rlhf/actor_critic.py]

    A shallow embedding of the three classes [ActorModel], [CriticModel] and
    [ActorCritic].  Python objects are attribute dictionaries, calls into
    [transformers] and [torch] go through an interface of opaque operations,
    and every method is a computation that can raise and that logs the
    library calls it makes. *)

From stdpp Require Import base strings gmap list.
From Stdlib Require Import ZArith Lia.

Local Set Warnings "-register-all".
Local Open Scope Z_scope.

(** ** Exceptions, results *)

Inductive exn : Type :=
| AttributeError
| TypeError
| NameError (name : string)
| IndexError
| ValueError (msg : string)
| LibraryError (msg : string).

Inductive result (A : Type) : Type :=
| Ok (a : A)
| Raise (e : exn).
Arguments Ok {A} a.
Arguments Raise {A} e.

(** ** Tensors

    A two-dimensional tensor is a list of rows (batch first); token ids and
    masks hold integers.  The tensors written this way are those with at
    least one row, all rows of one length: [shape1] reads [t.shape[1]] off
    the first row.  A tensor of shape (0, L) has no rows to carry its width;
    the list without rows stands for the one of shape (0, 0) only, and the
    statements that depend on the width of a prompt assume a row. *)

Abbreviation tensor2 A := (list (list A)).
Abbreviation tensor3 A := (list (list (list A))).

Definition shape0 {A} (t : list A) : Z := Z.of_nat (length t).

Definition shape1 {A} (t : list (list A)) : Z :=
  match t with
  | [] => 0
  | r :: _ => Z.of_nat (length r)
  end.

(** [l[start:]] with Python's rules: a negative start counts from the end,
    and the start is clamped to the list. *)
Definition py_slice_from {A} (start : Z) (l : list A) : list A :=
  let len := Z.of_nat (length l) in
  let lo := if start <? 0 then Z.max (len + start) 0 else Z.min start len in
  drop (Z.to_nat lo) l.

(** [t[:, start:]] (and [t[:, start:, :]] on a three-dimensional tensor). *)
Definition slice_cols_from {A} (start : Z) (t : list (list A)) : list (list A) :=
  py_slice_from start <$> t.

(** [t[:, -1]]: the last entry of every row; no row may be empty. *)
Fixpoint last_col {A} (t : list (list A)) : result (list A) :=
  match t with
  | [] => Ok []
  | r :: t' =>
      match last r with
      | None => Raise IndexError
      | Some x =>
          match last_col t' with
          | Ok xs => Ok (x :: xs)
          | Raise e => Raise e
          end
      end
  end.

(** [(sequence != pad).long()]: 1 where the token differs from [pad]. *)
Definition ne_mask (pad : Z) (t : tensor2 Z) : tensor2 Z :=
  fmap (M := list) (fun tok => if tok =? pad then 0 else 1) <$> t.

(** ** Objects *)

(** The tokenizer attributes the code reads and assigns.  As in
    [transformers], a special token is stored as its text only and its id is
    looked up in the vocabulary: reading [eos_token_id] converts the stored
    [eos_token], and assigning [eos_token_id] stores the vocabulary's token
    for that id in [eos_token] (the same for [pad_token_id]).  The two
    conversions of the vocabulary are the tokenizer's own; an id or a token
    the vocabulary does not have converts to [None]. *)
Record Tokenizer : Type := mkTokenizer {
  eos_token : option string;
  pad_token : option string;
  padding_side : option string;
  truncation_side : option string;
  convert_ids_to_tokens : Z -> option string;
  convert_tokens_to_ids : string -> option Z;
}.

(** [tokenizer.eos_token_id] and [tokenizer.pad_token_id], read. *)
Definition eos_token_id (t : Tokenizer) : option Z :=
  match eos_token t with
  | Some token => convert_tokens_to_ids t token
  | None => None
  end.
Definition pad_token_id (t : Tokenizer) : option Z :=
  match pad_token t with
  | Some token => convert_tokens_to_ids t token
  | None => None
  end.

Definition set_eos_token (v : option string) (t : Tokenizer) : Tokenizer :=
  mkTokenizer v (pad_token t) (padding_side t) (truncation_side t)
              (convert_ids_to_tokens t) (convert_tokens_to_ids t).
Definition set_pad_token (v : option string) (t : Tokenizer) : Tokenizer :=
  mkTokenizer (eos_token t) v (padding_side t) (truncation_side t)
              (convert_ids_to_tokens t) (convert_tokens_to_ids t).

(** [tokenizer.eos_token_id = v] and [tokenizer.pad_token_id = v]. *)
Definition set_eos_token_id (v : option Z) (t : Tokenizer) : Tokenizer :=
  set_eos_token
    (match v with Some i => convert_ids_to_tokens t i | None => None end) t.
Definition set_pad_token_id (v : option Z) (t : Tokenizer) : Tokenizer :=
  set_pad_token
    (match v with Some i => convert_ids_to_tokens t i | None => None end) t.

(** The classes of the file; all three derive from [nn.Module]. *)
Inductive class : Type := ActorModelC | CriticModelC | ActorCriticC.

(** Handles of objects that live inside the libraries (pretrained models,
    layers). *)
Definition handle : Type := nat.

Section Values.
(** Floating-point numbers are kept abstract. *)
Variable scalar : Type.

(** Python values.  [VObj c init d] is an instance of class [c] whose
    attributes are [d]; [init] records whether [nn.Module.__init__] has run
    on it. *)
Inductive value : Type :=
| VNone
| VBool (b : bool)
| VInt (z : Z)
| VFloat (x : scalar)
| VStr (s : string)
| VTuple (vs : list value)
| VTokenizer (t : Tokenizer)
| VConfig (d : gmap string value)
| VPretrained (h : handle)
| VLayer (h : handle)
| VSequential (layers : list handle)
| VObj (c : class) (init : bool) (d : gmap string value).

(** What the code asks of [transformers] and [torch].  Each operation may
    raise.  [causal_forward] is the [.logits] of calling a causal model,
    [encoder_forward] the [.last_hidden_state] of calling an encoder,
    [causal_generate] is the model's [generate] with the given temperature
    and [max_length]. *)
Class Transformers : Type := {
  AutoTokenizer_from_pretrained :
    option string -> list (string * string) -> result Tokenizer;
  AutoModelForCausalLM_from_pretrained : option string -> result handle;
  AutoModel_from_pretrained : option string -> result handle;
  causal_forward : handle -> tensor2 Z -> tensor2 Z -> result (tensor3 scalar);
  causal_generate :
    handle -> tensor2 Z -> tensor2 Z -> value -> Z -> result (tensor2 Z);
  encoder_forward : handle -> tensor2 Z -> tensor2 Z -> result (tensor3 scalar);
  model_config : handle -> value;
  torch_nn_Linear : value -> value -> result handle;
  torch_nn_ReLU : result handle;
  Rearrange_layer : string -> result handle;
  sequential_forward : list handle -> tensor3 scalar -> result (tensor2 scalar);
}.
End Values.

Arguments VNone {scalar}.
Arguments VBool {scalar} b.
Arguments VInt {scalar} z.
Arguments VFloat {scalar} x.
Arguments VStr {scalar} s.
Arguments VTuple {scalar} vs.
Arguments VTokenizer {scalar} t.
Arguments VConfig {scalar} d.
Arguments VPretrained {scalar} h.
Arguments VLayer {scalar} h.
Arguments VSequential {scalar} layers.
Arguments VObj {scalar} c init d.

Arguments AutoTokenizer_from_pretrained {scalar _} pretrained kwargs.
Arguments AutoModelForCausalLM_from_pretrained {scalar _} pretrained.
Arguments AutoModel_from_pretrained {scalar _} pretrained.
Arguments causal_forward {scalar _} h ids mask.
Arguments causal_generate {scalar _} h ids mask temperature max_length.
Arguments encoder_forward {scalar _} h ids mask.
Arguments model_config {scalar _} h.
Arguments torch_nn_Linear {scalar _} in_features out_features.
Arguments torch_nn_ReLU {scalar _}.
Arguments Rearrange_layer {scalar _} pattern.
Arguments sequential_forward {scalar _} layers hidden.

(** ** Library calls made, in order *)

Inductive event : Type :=
| EvLoadTokenizer (pretrained : option string)
| EvLoadCausalLM (pretrained : option string)
| EvLoadEncoder (pretrained : option string)
| EvCausalForward (h : handle) (ids mask : tensor2 Z)
| EvCausalGenerate (h : handle) (ids mask : tensor2 Z) (max_length : Z)
| EvEncoderForward (h : handle) (ids mask : tensor2 Z)
| EvValueHead (layers : list handle)
| EvPrint (label : string).

Definition trace : Type := list event.

(** ** The monad of methods: a log of events and a possible exception *)

Definition M (A : Type) : Type := trace -> trace * result A.

Definition ret {A} (a : A) : M A := fun tr => (tr, Ok a).
Definition raise {A} (e : exn) : M A := fun tr => (tr, Raise e).
Definition bind {A B} (m : M A) (f : A -> M B) : M B :=
  fun tr =>
    match m tr with
    | (tr', Ok a) => f a tr'
    | (tr', Raise e) => (tr', Raise e)
    end.
Definition emit (e : event) : M unit := fun tr => (tr ++ [e], Ok tt).
Definition lift {A} (r : result A) : M A := fun tr => (tr, r).

Notation "'let*' x ':=' m 'in' k" := (bind m (fun x => k))
  (at level 10, x pattern, m at level 100, k at level 200).

Definition print (label : string) : M unit := emit (EvPrint label).

Fixpoint prints (labels : list string) : M unit :=
  match labels with
  | [] => ret tt
  | l :: ls => let* _ := print l in prints ls
  end.

(** ** Attribute access, [nn.Module] bookkeeping, names *)

Section Program.
Context {scalar : Type} `{!Transformers scalar}.

Abbreviation value := (value scalar).

(** Instances of [nn.Module]: the classes of this file, pretrained models
    and torch layers. *)
Definition is_module (v : value) : bool :=
  match v with
  | VPretrained _ | VLayer _ | VSequential _ | VObj _ _ _ => true
  | _ => false
  end.

(** [object.__new__(cls)]: no attribute yet, [nn.Module.__init__] not run. *)
Definition new (c : class) : value := VObj c false ∅.

(** [super().__init__()] of an [nn.Module] subclass. *)
Definition nn_Module___init__ (self : value) : M value :=
  match self with
  | VObj c _ d => ret (VObj c true d)
  | _ => raise TypeError
  end.

(** [self.name = v].  [nn.Module.__setattr__] refuses to register a module
    on an object whose [nn.Module.__init__] has not run ("cannot assign
    module before Module.__init__() call"); any other value is stored as a
    plain attribute. *)
Definition setattr (self : value) (name : string) (v : value) : M value :=
  match self with
  | VObj c init d =>
      if is_module v && negb init then raise AttributeError
      else ret (VObj c init (<[name := v]> d))
  | _ => raise AttributeError
  end.

Definition tokenizer_attr (t : Tokenizer) (name : string) : result value :=
  let str o := match o with Some s => VStr s | None => VNone end in
  let int o := match o with Some z => VInt z | None => VNone end in
  if String.eqb name "eos_token" then Ok (str (eos_token t))
  else if String.eqb name "eos_token_id" then Ok (int (eos_token_id t))
  else if String.eqb name "pad_token" then Ok (str (pad_token t))
  else if String.eqb name "pad_token_id" then Ok (int (pad_token_id t))
  else if String.eqb name "padding_side" then Ok (str (padding_side t))
  else if String.eqb name "truncation_side" then Ok (str (truncation_side t))
  else Raise AttributeError.

(** [v.name] for a data attribute.  A tuple, [None], a number or a string
    has none of the attributes the code asks for. *)
Definition getattr (v : value) (name : string) : M value :=
  match v with
  | VObj _ _ d | VConfig d =>
      match d !! name with
      | Some x => ret x
      | None => raise AttributeError
      end
  | VTokenizer t => lift (tokenizer_attr t name)
  | VPretrained h =>
      if String.eqb name "config" then ret (model_config h)
      else raise AttributeError
  | _ => raise AttributeError
  end.

(** Truth value of [if v:]. *)
Definition truthy (v : value) : bool :=
  match v with
  | VNone => false
  | VBool b => b
  | VInt z => negb (z =? 0)
  | VStr s => negb (String.eqb s "")
  | VTuple vs => negb (bool_decide (vs = []))
  | _ => true
  end.

(** Integers where the code does integer arithmetic. *)
Definition as_int (v : value) : M Z :=
  match v with
  | VInt z => ret z
  | VBool b => ret (if b then 1 else 0)
  | _ => raise TypeError
  end.

(** Names bound at module level: the imports and the three classes.
    Together with the builtins the file uses they are all a function body
    can load. *)
Definition module_globals : list string :=
  ["Optional"; "Tuple"; "torch"; "nn"; "AutoModel"; "AutoModelForCausalLM";
   "AutoTokenizer"; "ActorModel"; "CriticModel"; "ActorCritic"].
Definition builtins_used : list string :=
  ["super"; "min"; "print"; "ValueError"].

Definition load_name (name : string) : M unit :=
  if bool_decide (name ∈ module_globals ++ builtins_used) then ret tt
  else raise (NameError name).

(** [if self.debug: print(...)]. *)
Definition debug_prints (self : value) (labels : list string) : M unit :=
  let* dbg := getattr self "debug" in
  if truthy dbg then prints labels else ret tt.

(** ** class ActorModel *)

(** [self.tokenizer], a tokenizer object. *)
Definition self_tokenizer (self : value) : M Tokenizer :=
  let* t := getattr self "tokenizer" in
  match t with
  | VTokenizer tok => ret tok
  | _ => raise AttributeError
  end.

(** [self.tokenizer.<field> = ...]. *)
Definition update_tokenizer (self : value) (f : Tokenizer -> Tokenizer)
  : M value :=
  let* tok := self_tokenizer self in
  setattr self "tokenizer" (VTokenizer (f tok)).

(** Lines 24-28 and 125-129: the end-of-sequence fallback and the pad token. *)
Definition eos_pad_setup (self : value) : M value :=
  let* tok := self_tokenizer self in
  let* self :=
    match eos_token tok with
    | None =>
        let* self := update_tokenizer self (set_eos_token (Some "</s>")) in
        update_tokenizer self (set_eos_token_id (Some 0))
    | Some _ => ret self
    end in
  let* tok := self_tokenizer self in
  let* self := update_tokenizer self (set_pad_token (eos_token tok)) in
  let* tok := self_tokenizer self in
  update_tokenizer self (set_pad_token_id (eos_token_id tok)).

Definition ActorModel___init__ (self : value) (pretrained : option string)
  (debug : bool) : M value :=
  let* self := nn_Module___init__ self in
  let* _ := emit (EvLoadTokenizer pretrained) in
  let* tok := lift (AutoTokenizer_from_pretrained pretrained
                      [("padding_side", "left")]) in
  let* self := setattr self "tokenizer" (VTokenizer tok) in
  let* self := eos_pad_setup self in
  let* _ := emit (EvLoadCausalLM pretrained) in
  let* m := lift (AutoModelForCausalLM_from_pretrained pretrained) in
  let* self := setattr self "model" (VPretrained m) in
  setattr self "debug" (VBool debug).

(** [ActorModel(pretrained, debug)]. *)
Definition ActorModel (pretrained : option string) (debug : bool) : M value :=
  ActorModel___init__ (new ActorModelC) pretrained debug.

(** [self.model(input_ids, attention_mask=...).logits] where [self.model] is
    a pretrained causal model. *)
Definition call_causal (m : value) (ids mask : tensor2 Z)
  : M (tensor3 scalar) :=
  match m with
  | VPretrained h =>
      let* _ := emit (EvCausalForward h ids mask) in
      lift (causal_forward h ids mask)
  | _ => raise TypeError
  end.

Definition ActorModel_forward_labels : list string :=
  ["ActorModel.forward"; "model_output_logits shape"; "model_output logits"].

Definition ActorModel_forward (self : value) (inputs_ids : tensor2 Z)
  (attention_mask : tensor2 Z) : M (tensor3 scalar) :=
  let* model := getattr self "model" in
  let* model_output := call_causal model inputs_ids attention_mask in
  let* _ := debug_prints self ActorModel_forward_labels in
  ret model_output.

(** Lines 76-80. *)
Definition max_completion_of (max_tokens max_sequence_length prompt_len : Z)
  : Z :=
  let max_generation_possible := max_sequence_length - prompt_len in
  Z.min max_tokens max_generation_possible.

Definition budget_message : string :=
  "The maximum completion available is <= 0 the prompt is too " +:+
  "long w.r.t the model sequence length".

(** [self.model.generate(input_ids=..., attention_mask=..., temperature=...,
    max_length=...)]. *)
Definition call_generate (m : value) (states state_mask : tensor2 Z)
  (temperature : value) (max_length : Z) : M (tensor2 Z) :=
  match m with
  | VPretrained h =>
      let* _ := emit (EvCausalGenerate h states state_mask max_length) in
      lift (causal_generate h states state_mask temperature max_length)
  | _ => raise AttributeError
  end.

Definition ActorModel_generate_labels : list string :=
  ["ActorModel.generate"; "state"; "state shape"; "sequence shape";
   "sequence"; "actions shape"; "actions"].

Definition ActorModel_generate (self : value) (states state_mask : tensor2 Z)
  : M (tensor2 Z * tensor2 Z) :=
  let* config := getattr self "config" in
  let* temperature := getattr config "temperature" in
  let* config := getattr self "config" in
  let* max_sequence_length := getattr config "max_sequence_length" in
  let* config := getattr self "config" in
  let* max_tokens := getattr config "max_tokens" in
  let* max_sequence_length := as_int max_sequence_length in
  let* max_tokens := as_int max_tokens in
  let max_completion :=
    max_completion_of max_tokens max_sequence_length (shape1 states) in
  if max_completion <=? 0 then raise (ValueError budget_message)
  else
    let max_length := shape1 states + max_completion in
    let* model := getattr self "model" in
    let* sequences :=
      call_generate model states state_mask temperature max_length in
    let actions := slice_cols_from (shape1 states) sequences in
    let* _ := debug_prints self ActorModel_generate_labels in
    ret (actions, sequences).

(** ** class CriticModel *)

(** The body of [CriticModel.__init__]; it does not call
    [super().__init__()]. *)
Definition CriticModel___init__ (self : value) (pretrained : option string)
  (debug : bool) : M value :=
  let* _ := emit (EvLoadTokenizer pretrained) in
  let* tok := lift (AutoTokenizer_from_pretrained pretrained
                      [("padding_side", "left"); ("truncation_side", "left")]) in
  let* self := setattr self "tokenizer" (VTokenizer tok) in
  let* _ := emit (EvLoadEncoder pretrained) in
  let* m := lift (AutoModel_from_pretrained pretrained) in
  let* self := setattr self "model" (VPretrained m) in
  let* self := eos_pad_setup self in
  let* self := setattr self "debug" (VBool debug) in
  let* model := getattr self "model" in
  let* config := getattr model "config" in
  let* self := setattr self "config" config in
  let* config := getattr self "config" in
  let* head_hidden_size := getattr config "model_head_hidden_size" in
  let* l1 := lift (torch_nn_Linear head_hidden_size head_hidden_size) in
  let* l2 := lift torch_nn_ReLU in
  let* l3 := lift (torch_nn_Linear head_hidden_size (VInt 1)) in
  let* _ := load_name "Rearrange" in
  let* l4 := lift (Rearrange_layer "... 1 -> ...") in
  setattr self "value_head" (VSequential [l1; l2; l3; l4]).

(** [CriticModel(pretrained, debug)]. *)
Definition CriticModel (pretrained : option string) (debug : bool) : M value :=
  CriticModel___init__ (new CriticModelC) pretrained debug.

(** [self.model(input_ids, attention_mask=..., return_dict=True)
    .last_hidden_state]. *)
Definition call_encoder (m : value) (ids mask : tensor2 Z)
  : M (tensor3 scalar) :=
  match m with
  | VPretrained h =>
      let* _ := emit (EvEncoderForward h ids mask) in
      lift (encoder_forward h ids mask)
  | _ => raise TypeError
  end.

(** [self.value_head(hidden)]. *)
Definition call_head (head : value) (hidden : tensor3 scalar)
  : M (tensor2 scalar) :=
  match head with
  | VSequential layers =>
      let* _ := emit (EvValueHead layers) in
      lift (sequential_forward layers hidden)
  | _ => raise TypeError
  end.

Definition CriticModel_forward_labels : list string :=
  ["RewardModel.forward"; "output_sequence.shape"; "output_sequence";
   "reward.shape"; "reward"].

Definition CriticModel_forward (self : value) (input_ids : tensor2 Z)
  (attention_mask : tensor2 Z) : M (tensor2 scalar) :=
  let* model := getattr self "model" in
  let* hidden := call_encoder model input_ids attention_mask in
  let* head := getattr self "value_head" in
  let* rewards := call_head head hidden in
  let* _ := debug_prints self CriticModel_forward_labels in
  ret rewards.

Definition CriticModel_get_reward (self : value) (input_ids : tensor2 Z)
  (attention_mask : tensor2 Z) : M (list scalar) :=
  let* rewards := CriticModel_forward self input_ids attention_mask in
  lift (last_col rewards).

(** ** class ActorCritic *)

(** Line 208 reads [self.actor = actor,]: the right-hand side is the
    one-element tuple [(actor,)]. *)
Definition ActorCritic___init__ (self : value) (actor critic : value)
  (debug : bool) : M value :=
  let* self := nn_Module___init__ self in
  let* self := setattr self "actor" (VTuple [actor]) in
  let* self := setattr self "critic" critic in
  setattr self "debug" (VBool debug).

(** [ActorCritic(actor, critic, debug)]. *)
Definition ActorCritic (actor critic : value) (debug : bool) : M value :=
  ActorCritic___init__ (new ActorCriticC) actor critic debug.

(** [f(sequences, sequences_mask)].  An [ActorModel] is called through
    [nn.Module.__call__], which runs its [forward]; a tuple, [None], a number
    or a string is not callable.  Module objects other than an [ActorModel]
    are outside the documented type of the attribute and are refused here
    as well. *)
Definition call_actor (f : value) (sequences sequences_mask : tensor2 Z)
  : M (tensor3 scalar) :=
  match f with
  | VObj ActorModelC true _ => ActorModel_forward f sequences sequences_mask
  | VObj ActorModelC false _ => raise AttributeError
  | _ => raise TypeError
  end.

(** [c.forward(sequences, sequences_mask)] for the critic attribute.  [None]
    and tuples have no [forward]; objects of the other classes are outside
    the documented type. *)
Definition method_forward (c : value) (sequences sequences_mask : tensor2 Z)
  : M (tensor2 scalar) :=
  match c with
  | VObj CriticModelC _ _ => CriticModel_forward c sequences sequences_mask
  | VObj _ _ _ => raise TypeError
  | _ => raise AttributeError
  end.

(** [a.generate(states, state_mask)] for the actor attribute.  A tuple has
    no [generate]. *)
Definition method_generate (a : value) (states state_mask : tensor2 Z)
  : M (tensor2 Z * tensor2 Z) :=
  match a with
  | VObj ActorModelC _ _ => ActorModel_generate a states state_mask
  | VObj ActorCriticC _ _ => raise TypeError
  | _ => raise AttributeError
  end.

Definition ActorCritic_forward_labels : list string :=
  ["ActorCritic.forward"; "action_len"; "sequences.shape"; "sequences";
   "real_action_logits.shape"; "real_action_logits"; "real_values.shape";
   "real_values"].

Definition ActorCritic_forward (self : value)
  (sequences sequences_mask : tensor2 Z) (action_len : Z)
  : M (tensor3 scalar * tensor2 scalar) :=
  let* actor := getattr self "actor" in
  let* actions_logits := call_actor actor sequences sequences_mask in
  let* critic := getattr self "critic" in
  let* values := method_forward critic sequences sequences_mask in
  let real_actions_logits := slice_cols_from (- action_len) actions_logits in
  let real_values := slice_cols_from (- action_len) values in
  let* _ := debug_prints self ActorCritic_forward_labels in
  ret (real_actions_logits, real_values).

(** [sequence != pad_token_id], then [.to(device).long().detach()].  With
    [pad_token_id = None] the comparison is a plain [bool], which has no
    [to]. *)
Definition pad_mask (pad : value) (sequence : tensor2 Z) : M (tensor2 Z) :=
  match pad with
  | VInt p => ret (ne_mask p sequence)
  | VBool b => ret (ne_mask (if b then 1 else 0) sequence)
  | _ => raise AttributeError
  end.

Definition ActorCritic_generate_labels : list string :=
  ["ActorCritic.generate"; "actions shape"; "actions"; "sequence shape";
   "sequence"; "actions_logits shape"; "actions_logits"; "values shape";
   "values"].

Definition ActorCritic_generate (self : value) (states state_mask : tensor2 Z)
  : M (tensor2 Z * tensor3 scalar * tensor2 scalar * tensor2 Z * tensor2 Z) :=
  let* actor := getattr self "actor" in
  let* (actions, sequence) := method_generate actor states state_mask in
  let* actor := getattr self "actor" in
  let* tokenizer := getattr actor "tokenizer" in
  let* pad_token_id := getattr tokenizer "pad_token_id" in
  let* sequences_mask := pad_mask pad_token_id sequence in
  let action_len := shape1 actions in
  let* (actions_logits, values) :=
    ActorCritic_forward self sequence sequences_mask action_len in
  let* _ := debug_prints self ActorCritic_generate_labels in
  ret (actions, actions_logits, values, sequence, sequences_mask).

End Program.

(** ** Derived descriptions used in the statements *)

(** The tokenizer after the end-of-sequence fallback and the pad
    assignments, as one function of the loaded tokenizer. *)
Definition with_eos_pad (tok : Tokenizer) : Tokenizer :=
  let t1 :=
    match eos_token tok with
    | None => set_eos_token_id (Some 0) (set_eos_token (Some "</s>") tok)
    | Some _ => tok
    end in
  let t2 := set_pad_token (eos_token t1) t1 in
  set_pad_token_id (eos_token_id t2) t2.

(** What the code relies on from the model's [generate]: called on the
    prompts with a [max_length] above their length, it returns one row per
    prompt, all rows of one width that is at most [max_length], each row
    beginning with its prompt. *)
Definition sampler_extends_prompt {scalar} `{!Transformers scalar}
  (states state_mask : tensor2 Z) : Prop :=
  forall h temperature max_length sequences,
    shape1 states < max_length ->
    causal_generate h states state_mask temperature max_length = Ok sequences ->
    exists width,
      width <= max_length /\
      Forall2 (fun prompt row =>
                 Z.of_nat (length row) = width /\ prompt `prefix_of` row)
              states sequences.

(** A computation that raises from every starting log. *)
Definition fails {A} (m : M A) : Prop :=
  forall tr, exists tr' e, m tr = (tr', Raise e).

(** The events of a log that are calls of a given kind. *)
Definition is_sampler_call (e : event) : bool :=
  match e with EvCausalGenerate _ _ _ _ => true | _ => false end.
Definition is_causal_forward (e : event) : bool :=
  match e with EvCausalForward _ _ _ => true | _ => false end.
Definition is_encoder_forward (e : event) : bool :=
  match e with EvEncoderForward _ _ _ => true | _ => false end.

(** ** A concrete library, for closed runs

    Numbers stand in for floats.  The tokenizer it loads has no
    end-of-sequence token and a vocabulary that begins like galactica's
    ([<s>], [<pad>], [</s>], [<unk>]); the causal model scores every token
    with two logits and ignores the mask; its sampler pads the prompt with
    token 7 up to [max_length]. *)

Definition demo_ids_to_tokens (i : Z) : option string :=
  if i =? 0 then Some "<s>"
  else if i =? 1 then Some "<pad>"
  else if i =? 2 then Some "</s>"
  else if i =? 3 then Some "<unk>"
  else None.

Definition demo_tokens_to_ids (token : string) : option Z :=
  if String.eqb token "<s>" then Some 0
  else if String.eqb token "<pad>" then Some 1
  else if String.eqb token "</s>" then Some 2
  else Some 3.

Definition demo_tokenizer (kwargs : list (string * string)) : Tokenizer :=
  mkTokenizer None None
    (snd <$> head (filter (fun kv => String.eqb (fst kv) "padding_side") kwargs))
    (snd <$> head (filter (fun kv => String.eqb (fst kv) "truncation_side") kwargs))
    demo_ids_to_tokens demo_tokens_to_ids.

#[local] Instance demo_lib : Transformers Z := {|
  AutoTokenizer_from_pretrained _ kwargs := Ok (demo_tokenizer kwargs);
  AutoModelForCausalLM_from_pretrained _ := Ok 1%nat;
  AutoModel_from_pretrained _ := Ok 2%nat;
  causal_forward _ ids _ := Ok (map (map (fun tok => [tok; tok + 1])) ids);
  causal_generate _ ids _ _ max_length :=
    Ok (map (fun r => r ++ replicate (Z.to_nat max_length - length r) 7) ids);
  encoder_forward _ ids _ := Ok (map (map (fun tok => [tok])) ids);
  model_config _ := VConfig (<["model_head_hidden_size" := VInt 8]> ∅);
  torch_nn_Linear _ _ := Ok 3%nat;
  torch_nn_ReLU := Ok 4%nat;
  Rearrange_layer _ := Ok 5%nat;
  sequential_forward _ hidden := Ok (map (map (fun v => foldr Z.add 0 v)) hidden);
|}.

(** The actor the demo library yields (lines 16-30 run on a fresh object). *)
Definition demo_actor : value Z :=
  VObj ActorModelC true
    (<["debug" := VBool false]>
       (<["model" := VPretrained 1%nat]>
          (<["tokenizer" :=
               VTokenizer (mkTokenizer (Some "<s>") (Some "<s>")
                             (Some "left") None
                             demo_ids_to_tokens demo_tokens_to_ids)]> ∅))).

(** The same actor with a [config] attribute put in by hand. *)
Definition demo_config : value Z :=
  VConfig (<["temperature" := VInt 1]>
             (<["max_sequence_length" := VInt 20]>
                (<["max_tokens" := VInt 2]> ∅))).

Definition demo_actor_with_config : value Z :=
  match demo_actor with
  | VObj c init d => VObj c init (<["config" := demo_config]> d)
  | v => v
  end.

(** A critic as lines 118-142 describe it, put together by hand. *)
Definition demo_critic : value Z :=
  VObj CriticModelC true
    (<["value_head" := VSequential [3; 4; 3; 5]%nat]>
       (<["config" := model_config 2%nat]>
          (<["debug" := VBool false]>
             (<["model" := VPretrained 2%nat]>
                (<["tokenizer" :=
                     VTokenizer (mkTokenizer (Some "<s>") (Some "<s>")
                                   (Some "left") (Some "left")
                                   demo_ids_to_tokens
                                   demo_tokens_to_ids)]> ∅))))).

(** The pair [ActorCritic(demo_actor, demo_critic)] as line 208 stores it,
    and the pair with the actor itself under [actor]. *)
Definition demo_pair : value Z :=
  VObj ActorCriticC true
    (<["debug" := VBool false]>
       (<["critic" := demo_critic]>
          (<["actor" := VTuple [demo_actor]]> ∅))).

Definition demo_pair_bound : value Z :=
  VObj ActorCriticC true
    (<["debug" := VBool false]>
       (<["critic" := demo_critic]>
          (<["actor" := demo_actor_with_config]> ∅))).

(** A pair built with the default [critic=None], the actor itself under
    [actor]. *)
Definition demo_pair_no_critic : value Z :=
  VObj ActorCriticC true
    (<["debug" := VBool false]>
       (<["critic" := VNone]>
          (<["actor" := demo_actor_with_config]> ∅))).

(** The attribute dictionary of an object. *)
Definition demo_attrs (v : value Z) : gmap string (value Z) :=
  match v with
  | VObj _ _ d | VConfig d => d
  | _ => ∅
  end.

(** The demo library with a causal model that refuses a mask whose shape is
    not the shape of the token ids. *)
Definition strict_lib : Transformers Z := {|
  AutoTokenizer_from_pretrained _ kwargs := Ok (demo_tokenizer kwargs);
  AutoModelForCausalLM_from_pretrained _ := Ok 1%nat;
  AutoModel_from_pretrained _ := Ok 2%nat;
  causal_forward _ ids mask :=
    if bool_decide ((shape0 mask, shape1 mask) = (shape0 ids, shape1 ids))
    then Ok (map (map (fun tok => [tok; tok + 1])) ids)
    else Raise (LibraryError "mask and input_ids differ in shape");
  causal_generate := @causal_generate Z demo_lib;
  encoder_forward := @encoder_forward Z demo_lib;
  model_config := @model_config Z demo_lib;
  torch_nn_Linear := @torch_nn_Linear Z demo_lib;
  torch_nn_ReLU := @torch_nn_ReLU Z demo_lib;
  Rearrange_layer := @Rearrange_layer Z demo_lib;
  sequential_forward := @sequential_forward Z demo_lib;
|}.

(** Two tokenizers without end-of-sequence token, one with a pad token of
    its own. *)
Definition padded_tokenizer : Tokenizer :=
  mkTokenizer None (Some "<pad>") (Some "left") None
              demo_ids_to_tokens demo_tokens_to_ids.
Definition bare_tokenizer : Tokenizer :=
  mkTokenizer None None (Some "left") (Some "left")
              demo_ids_to_tokens demo_tokens_to_ids.

(** ** Monad and attribute lemmas *)

Section Proofs.
Context {scalar : Type} `{!Transformers scalar}.

Abbreviation value := (value scalar).

Lemma bind_ok {A B} (m : M A) (f : A -> M B) tr tr' a :
  m tr = (tr', Ok a) -> bind m f tr = f a tr'.
Proof. unfold bind. by intros ->. Qed.

Lemma bind_raise {A B} (m : M A) (f : A -> M B) tr tr' e :
  m tr = (tr', Raise e) -> bind m f tr = (tr', Raise e).
Proof. unfold bind. by intros ->. Qed.

Lemma bind_inv_ok {A B} (m : M A) (f : A -> M B) tr tr' b :
  bind m f tr = (tr', Ok b) ->
  exists tr1 a, m tr = (tr1, Ok a) /\ f a tr1 = (tr', Ok b).
Proof.
  unfold bind. destruct (m tr) as [tr1 [a|e]]; [eauto | discriminate].
Qed.

Lemma fails_bind_l {A B} (m : M A) (f : A -> M B) :
  fails m -> fails (bind m f).
Proof.
  intros Hm tr. destruct (Hm tr) as (tr' & e & Heq).
  exists tr', e. by apply bind_raise.
Qed.

Lemma fails_bind_r {A B} (m : M A) (f : A -> M B) :
  (forall a, fails (f a)) -> fails (bind m f).
Proof.
  intros Hf tr. unfold bind. destruct (m tr) as [tr1 [a|e]]; [apply Hf | eauto].
Qed.

Lemma fails_raise {A} (e : exn) : fails (@raise A e).
Proof. intros tr. by exists tr, e. Qed.

Lemma setattr_plain c init d name (v : value) tr :
  is_module v = false ->
  setattr (VObj c init d) name v tr = (tr, Ok (VObj c init (<[name := v]> d))).
Proof. unfold setattr. by intros ->. Qed.

Lemma setattr_initialised c d name (v : value) tr :
  setattr (VObj c true d) name v tr = (tr, Ok (VObj c true (<[name := v]> d))).
Proof. unfold setattr. simpl. by rewrite andb_false_r. Qed.

Lemma setattr_module_uninitialised c d name (v : value) tr :
  is_module v = true ->
  setattr (VObj c false d) name v tr = (tr, Raise AttributeError).
Proof. unfold setattr. by intros ->. Qed.

Lemma getattr_obj c init d name (v : value) tr :
  d !! name = Some v -> getattr (VObj c init d) name tr = (tr, Ok v).
Proof. unfold getattr. by intros ->. Qed.

Lemma getattr_obj_missing c init (d : gmap string value) name tr :
  d !! name = None -> getattr (VObj c init d) name tr = (tr, Raise AttributeError).
Proof. unfold getattr. by intros ->. Qed.

Lemma load_name_Rearrange : fails (load_name "Rearrange").
Proof. intros tr. exists tr, (NameError "Rearrange"). reflexivity. Qed.

(** ** Construction of an actor *)

Lemma self_tokenizer_obj c init (d : gmap string value) tok tr :
  d !! "tokenizer" = Some (VTokenizer tok) ->
  self_tokenizer (VObj c init d) tr = (tr, Ok tok).
Proof.
  intros Hd. unfold self_tokenizer.
  by rewrite (bind_ok _ _ _ _ _ (getattr_obj _ _ _ _ _ _ Hd)).
Qed.

Lemma update_tokenizer_obj c init (d : gmap string value) tok f tr :
  d !! "tokenizer" = Some (VTokenizer tok) ->
  update_tokenizer (VObj c init d) f tr =
    (tr, Ok (VObj c init (<["tokenizer" := VTokenizer (f tok)]> d))).
Proof.
  intros Hd. unfold update_tokenizer.
  rewrite (bind_ok _ _ _ _ _ (self_tokenizer_obj _ _ _ _ _ Hd)).
  by apply setattr_plain.
Qed.

Lemma eos_pad_setup_obj c init (d : gmap string value) tok tr :
  d !! "tokenizer" = Some (VTokenizer tok) ->
  eos_pad_setup (VObj c init d) tr =
    (tr, Ok (VObj c init (<["tokenizer" := VTokenizer (with_eos_pad tok)]> d))).
Proof.
  intros Hd. unfold eos_pad_setup, with_eos_pad.
  rewrite (bind_ok _ _ _ _ _ (self_tokenizer_obj _ _ _ _ _ Hd)).
  destruct (eos_token tok) as [s|] eqn:Heos.
  - rewrite (bind_ok _ _ tr tr (VObj c init d)) by done.
    rewrite (bind_ok _ _ _ _ _ (self_tokenizer_obj _ _ _ _ _ Hd)).
    rewrite (bind_ok _ _ _ _ _ (update_tokenizer_obj _ _ _ _ _ _ Hd)).
    erewrite bind_ok
      by (apply self_tokenizer_obj; apply lookup_insert_eq).
    erewrite update_tokenizer_obj by apply lookup_insert_eq.
    by rewrite insert_insert_eq.
  - erewrite (bind_ok (bind _ _)); last first.
    { erewrite bind_ok by (by apply update_tokenizer_obj).
      apply update_tokenizer_obj, lookup_insert_eq. }
    erewrite bind_ok
      by (apply self_tokenizer_obj; apply lookup_insert_eq).
    erewrite bind_ok
      by (apply update_tokenizer_obj; apply lookup_insert_eq).
    erewrite bind_ok
      by (apply self_tokenizer_obj; apply lookup_insert_eq).
    erewrite update_tokenizer_obj by apply lookup_insert_eq.
    by rewrite !insert_insert_eq.
Qed.

(** What a successful [ActorModel(pretrained, debug)] has built. *)
Lemma ActorModel_inv pretrained debug tr tr' self :
  ActorModel pretrained debug tr = (tr', Ok self) ->
  exists tok h,
    AutoTokenizer_from_pretrained pretrained [("padding_side", "left")] = Ok tok /\
    AutoModelForCausalLM_from_pretrained pretrained = Ok h /\
    tr' = tr ++ [EvLoadTokenizer pretrained; EvLoadCausalLM pretrained] /\
    self = VObj ActorModelC true
             (<["debug" := VBool debug]>
                (<["model" := VPretrained h]>
                   (<["tokenizer" := VTokenizer (with_eos_pad tok)]> ∅))).
Proof.
  unfold ActorModel, ActorModel___init__, new. intros Hrun.
  rewrite (bind_ok _ _ tr tr (VObj ActorModelC true ∅)) in Hrun by done.
  rewrite (bind_ok _ _ tr (tr ++ [EvLoadTokenizer pretrained]) tt) in Hrun by done.
  destruct (AutoTokenizer_from_pretrained pretrained [("padding_side", "left")])
    as [tok|e] eqn:Htok; last first.
  { by erewrite bind_raise in Hrun by done. }
  erewrite bind_ok in Hrun by done.
  erewrite bind_ok in Hrun by (by apply setattr_plain).
  erewrite bind_ok in Hrun by (apply eos_pad_setup_obj, lookup_insert_eq).
  rewrite insert_insert_eq in Hrun.
  erewrite bind_ok in Hrun by done.
  destruct (AutoModelForCausalLM_from_pretrained pretrained) as [h|e] eqn:Hh;
    last first.
  { by erewrite bind_raise in Hrun by done. }
  erewrite bind_ok in Hrun by done.
  erewrite bind_ok in Hrun by apply setattr_initialised.
  rewrite setattr_initialised in Hrun.
  injection Hrun as <- <-.
  exists tok, h. by rewrite <- app_assoc.
Qed.

Lemma with_eos_pad_eos tok :
  eos_token (with_eos_pad tok) =
    match eos_token tok with
    | Some token => Some token
    | None => convert_ids_to_tokens tok 0
    end.
Proof. destruct tok as [[token|] pad side tside i2t t2i]; reflexivity. Qed.

Lemma with_eos_pad_pad tok :
  pad_token (with_eos_pad tok) =
    match eos_token_id (with_eos_pad tok) with
    | Some i => convert_ids_to_tokens tok i
    | None => None
    end.
Proof. destruct tok as [[token|] pad side tside i2t t2i]; reflexivity. Qed.

Lemma with_eos_pad_vocabulary tok :
  convert_ids_to_tokens (with_eos_pad tok) = convert_ids_to_tokens tok /\
  convert_tokens_to_ids (with_eos_pad tok) = convert_tokens_to_ids tok /\
  padding_side (with_eos_pad tok) = padding_side tok /\
  truncation_side (with_eos_pad tok) = truncation_side tok.
Proof. by destruct tok as [[token|] pad side tside i2t t2i]. Qed.

Lemma prints_run labels tr :
  prints labels tr = (tr ++ (EvPrint <$> labels), Ok tt).
Proof.
  revert tr. induction labels as [|l ls IH]; intros tr; simpl.
  - by rewrite app_nil_r.
  - unfold bind, print, emit. rewrite IH. by rewrite <- app_assoc.
Qed.

Lemma debug_prints_run c init (d : gmap string value) (b : bool) labels tr :
  d !! "debug" = Some (VBool b) ->
  debug_prints (VObj c init d) labels tr =
    (tr ++ (if b then EvPrint <$> labels else []), Ok tt).
Proof.
  intros Hd. unfold debug_prints.
  rewrite (bind_ok _ _ _ _ _ (getattr_obj _ _ _ _ _ _ Hd)). simpl.
  destruct b; [apply prints_run | by rewrite app_nil_r].
Qed.

(** ** C9: an actor from the constructor has no [config] *)

(** C9.  [ActorModel.__init__] assigns [tokenizer], [model] and [debug] and
    never [config]; on every object the constructor returns, [generate]
    raises [AttributeError] at its first statement, for all [states] and
    [state_mask], and the log is unchanged: neither the budget nor the
    sampler is reached. *)
Theorem ActorModel_generate_raises_without_config
  pretrained debug tr tr' self :
  ActorModel pretrained debug tr = (tr', Ok self) ->
  forall states state_mask t,
    ActorModel_generate self states state_mask t = (t, Raise AttributeError).
Proof.
  intros Hrun states state_mask t.
  destruct (ActorModel_inv _ _ _ _ _ Hrun) as (tok & h & _ & _ & _ & ->).
  unfold ActorModel_generate.
  apply bind_raise, getattr_obj_missing.
  by rewrite !lookup_insert_ne.
Qed.

(** ** C6: scoring hands both tensors to the model *)

(** C6, as the code has it.  [ActorModel.forward] compares no shapes: on an
    actor from the constructor, for every token tensor and every mask, it
    calls the underlying causal model once on exactly these two tensors and
    returns what that call returns, logits or exception; the debug prints
    follow a successful call only. *)
Theorem ActorModel_forward_delegates pretrained debug tr0 tr1 self :
  ActorModel pretrained debug tr0 = (tr1, Ok self) ->
  exists h,
    AutoModelForCausalLM_from_pretrained pretrained = Ok h /\
    forall ids mask tr,
      ActorModel_forward self ids mask tr =
        (tr ++ EvCausalForward h ids mask ::
           match causal_forward h ids mask with
           | Ok _ => if debug then EvPrint <$> ActorModel_forward_labels else []
           | Raise _ => []
           end,
         causal_forward h ids mask).
Proof.
  intros Hrun.
  destruct (ActorModel_inv _ _ _ _ _ Hrun) as (tok & h & _ & Hh & _ & ->).
  exists h. split; [done|]. intros ids mask tr.
  unfold ActorModel_forward.
  erewrite bind_ok; last first.
  { apply getattr_obj. rewrite lookup_insert_ne by done. apply lookup_insert_eq. }
  unfold call_causal.
  destruct (causal_forward h ids mask) as [logits|e] eqn:Hfw.
  - erewrite (bind_ok (bind _ _)); last first.
    { by erewrite bind_ok by done. }
    erewrite bind_ok by (apply debug_prints_run, lookup_insert_eq).
    unfold ret. by rewrite <- app_assoc.
  - erewrite bind_raise; [done|].
    by erewrite bind_ok by done.
Qed.

(** ** C8: the actor attribute is a tuple *)

(** C8.  For all [actor], [critic] and [debug], [ActorCritic(...)] returns an
    object whose [actor] attribute is the tuple [(actor,)]; on that object
    [forward] raises [TypeError] (a tuple is not callable) and [generate]
    raises [AttributeError] (a tuple has no [generate]) for every input,
    before any library call. *)
Theorem ActorCritic_actor_is_a_tuple (actor critic : value) (debug : bool)
  (tr : trace) :
  exists self,
    ActorCritic actor critic debug tr = (tr, Ok self) /\
    getattr self "actor" tr = (tr, Ok (VTuple [actor])) /\
    (forall sequences sequences_mask action_len t,
       ActorCritic_forward self sequences sequences_mask action_len t =
         (t, Raise TypeError)) /\
    (forall states state_mask t,
       ActorCritic_generate self states state_mask t =
         (t, Raise AttributeError)).
Proof.
  eexists. split.
  { unfold ActorCritic, ActorCritic___init__, new.
    rewrite (bind_ok _ _ tr tr (VObj ActorCriticC true ∅)) by done.
    erewrite bind_ok by apply setattr_initialised.
    erewrite bind_ok by apply setattr_initialised.
    apply setattr_initialised. }
  assert (Hactor : forall t,
    getattr (VObj ActorCriticC true
      (<["debug" := VBool debug]>
         (<["critic" := critic]> (<["actor" := VTuple [actor]]> ∅))))
      "actor" t = (t, Ok (VTuple [actor]))).
  { intros t. apply getattr_obj.
    rewrite !lookup_insert_ne by done. apply lookup_insert_eq. }
  split; [apply Hactor|]. split.
  - intros sequences sequences_mask action_len t.
    unfold ActorCritic_forward. rewrite (bind_ok _ _ _ _ _ (Hactor t)).
    by apply bind_raise.
  - intros states state_mask t.
    unfold ActorCritic_generate. rewrite (bind_ok _ _ _ _ _ (Hactor t)).
    by apply bind_raise.
Qed.

(** ** C10: no critic can be constructed *)

(** C10.  The body of [CriticModel.__init__] raises from every starting
    object, for every [pretrained] and [debug] and whatever the libraries
    return: on every path that gets that far it loads the unbound name
    [Rearrange].  So does the constructor itself, which runs the body on a
    fresh object whose [nn.Module.__init__] was never called.  No
    [CriticModel] is ever returned for [forward] or [get_reward] to run
    on. *)
Theorem CriticModel_construction_fails pretrained debug :
  (forall self, fails (CriticModel___init__ self pretrained debug)) /\
  fails (CriticModel pretrained debug).
Proof.
  assert (Hbody : forall self,
            fails (CriticModel___init__ self pretrained debug)).
  { intros self. unfold CriticModel___init__.
    do 16 (apply fails_bind_r; intros ?).
    apply fails_bind_l, load_name_Rearrange. }
  split; [exact Hbody | apply Hbody].
Qed.

(** On the fresh object the failure comes earlier: once both loaders have
    returned, registering the encoder as [self.model] (line 123) raises
    [AttributeError], before the end-of-sequence fallback of lines
    125-129. *)
Lemma CriticModel_raises_at_model_assignment pretrained debug tok h tr :
  AutoTokenizer_from_pretrained pretrained
    [("padding_side", "left"); ("truncation_side", "left")] = Ok tok ->
  AutoModel_from_pretrained pretrained = Ok h ->
  CriticModel pretrained debug tr =
    (tr ++ [EvLoadTokenizer pretrained; EvLoadEncoder pretrained],
     Raise AttributeError).
Proof.
  intros Htok Hh. unfold CriticModel, CriticModel___init__, new.
  erewrite bind_ok by done.
  erewrite bind_ok by (unfold lift; by rewrite Htok).
  erewrite bind_ok by (by apply setattr_plain).
  erewrite bind_ok by done.
  erewrite bind_ok by (unfold lift; by rewrite Hh).
  erewrite bind_raise by (by apply setattr_module_uninitialised).
  by rewrite <- app_assoc.
Qed.

(** ** The code behind the defects

    The lemmas of this part describe the bodies of [generate] and [forward]
    on objects that do carry the attributes the bodies read: an actor with a
    [config], a pair whose [actor] attribute is the actor itself.  The
    constructors build no such object. *)

Lemma max_completion_of_antitone max_tokens max_sequence_length l1 l2 :
  l1 <= l2 ->
  max_completion_of max_tokens max_sequence_length l2 <=
  max_completion_of max_tokens max_sequence_length l1.
Proof. unfold max_completion_of. lia. Qed.

Lemma max_completion_of_exhausted max_tokens max_sequence_length l :
  max_sequence_length <= l ->
  max_completion_of max_tokens max_sequence_length l <= 0.
Proof. unfold max_completion_of. lia. Qed.

Lemma max_completion_of_le_max_tokens max_tokens max_sequence_length l :
  max_completion_of max_tokens max_sequence_length l <= max_tokens.
Proof. unfold max_completion_of. lia. Qed.

Lemma getattr_config (cfg : gmap string value) name (v : value) tr :
  cfg !! name = Some v -> getattr (VConfig cfg) name tr = (tr, Ok v).
Proof. unfold getattr. by intros ->. Qed.

(** With a [config] in place, lines 69-84: the budget is
    [min(max_tokens, max_sequence_length - prompt length)], and a budget of
    zero or less raises [ValueError] with the log unchanged, so before the
    sampler. *)
Lemma ActorModel_generate_budget_exhausted
  c init (d cfg : gmap string value) temperature msl mt states state_mask tr :
  d !! "config" = Some (VConfig cfg) ->
  cfg !! "temperature" = Some temperature ->
  cfg !! "max_sequence_length" = Some (VInt msl) ->
  cfg !! "max_tokens" = Some (VInt mt) ->
  max_completion_of mt msl (shape1 states) <= 0 ->
  ActorModel_generate (VObj c init d) states state_mask tr =
    (tr, Raise (ValueError budget_message)).
Proof.
  intros Hcfg Htemp Hmsl Hmt Hle. unfold ActorModel_generate.
  erewrite bind_ok by (by apply getattr_obj).
  erewrite bind_ok by (by apply getattr_config).
  erewrite bind_ok by (by apply getattr_obj).
  erewrite bind_ok by (by apply getattr_config).
  erewrite bind_ok by (by apply getattr_obj).
  erewrite bind_ok by (by apply getattr_config).
  erewrite bind_ok by done.
  erewrite bind_ok by done.
  by rewrite (proj2 (Z.leb_le _ _) Hle).
Qed.

(** With a positive budget the sampler is called once, with
    [max_length = prompt length + budget], and [actions] is
    [sequences[:, prompt length:]]. *)
Lemma ActorModel_generate_samples
  c init (d cfg : gmap string value) temperature msl mt h states state_mask tr :
  d !! "config" = Some (VConfig cfg) ->
  cfg !! "temperature" = Some temperature ->
  cfg !! "max_sequence_length" = Some (VInt msl) ->
  cfg !! "max_tokens" = Some (VInt mt) ->
  d !! "model" = Some (VPretrained h) ->
  d !! "debug" = Some (VBool false) ->
  0 < max_completion_of mt msl (shape1 states) ->
  let max_length := shape1 states + max_completion_of mt msl (shape1 states) in
  ActorModel_generate (VObj c init d) states state_mask tr =
    (tr ++ [EvCausalGenerate h states state_mask max_length],
     match causal_generate h states state_mask temperature max_length with
     | Ok sequences => Ok (slice_cols_from (shape1 states) sequences, sequences)
     | Raise e => Raise e
     end).
Proof.
  intros Hcfg Htemp Hmsl Hmt Hmodel Hdbg Hpos max_length.
  unfold ActorModel_generate.
  erewrite bind_ok by (by apply getattr_obj).
  erewrite bind_ok by (by apply getattr_config).
  erewrite bind_ok by (by apply getattr_obj).
  erewrite bind_ok by (by apply getattr_config).
  erewrite bind_ok by (by apply getattr_obj).
  erewrite bind_ok by (by apply getattr_config).
  erewrite bind_ok by done.
  erewrite bind_ok by done.
  rewrite (proj2 (Z.leb_gt _ _) Hpos).
  erewrite bind_ok by (by apply getattr_obj).
  unfold call_generate. fold max_length.
  destruct (causal_generate h states state_mask temperature max_length)
    as [sequences|e] eqn:Hgen.
  - erewrite (bind_ok (bind _ _)); last first.
    { by erewrite bind_ok by done. }
    erewrite bind_ok by (by apply debug_prints_run).
    unfold ret. by rewrite app_nil_r.
  - erewrite bind_raise; [done|].
    by erewrite bind_ok by done.
Qed.

(** [row[l:]] is what remains of [row] after its first [l] entries. *)
Lemma py_slice_from_suffix {A} (l : nat) (row : list A) :
  take l row ++ py_slice_from (Z.of_nat l) row = row.
Proof.
  unfold py_slice_from.
  destruct (Z.ltb_spec (Z.of_nat l) 0) as [Hneg|_]; [lia|].
  destruct (Z.min_spec (Z.of_nat l) (Z.of_nat (length row)))
    as [[Hlt ->]|[Hge ->]].
  - rewrite Nat2Z.id. apply take_drop.
  - rewrite Nat2Z.id, drop_all, app_nil_r. apply take_ge. lia.
Qed.

(** [row[-n:]] for [0 < n <= len(row)]: the last [n] entries. *)
Lemma py_slice_from_last {A} (n : Z) (row : list A) :
  0 < n <= Z.of_nat (length row) ->
  py_slice_from (- n) row = drop (length row - Z.to_nat n) row /\
  Z.of_nat (length (py_slice_from (- n) row)) = n.
Proof.
  intros Hn. unfold py_slice_from.
  destruct (Z.ltb_spec (- n) 0) as [_|Hge]; [|lia].
  replace (Z.to_nat (Z.max (Z.of_nat (length row) + - n) 0))
    with (length row - Z.to_nat n)%nat by lia.
  split; [done|]. rewrite length_drop. lia.
Qed.

Lemma slice_cols_from_shape1 {A} (n : Z) (t : list (list A)) :
  0 < n <= shape1 t ->
  shape1 (slice_cols_from (- n) t) = n.
Proof.
  destruct t as [|row t]; simpl; [lia|].
  intros Hn. by apply py_slice_from_last.
Qed.

Lemma slice_cols_from_lookup {A} (n : Z) (t : list (list A)) b row :
  t !! b = Some row ->
  slice_cols_from n t !! b = Some (py_slice_from n row).
Proof. intros Hb. unfold slice_cols_from. by rewrite list_lookup_fmap, Hb. Qed.

(** Lines 276-277: the mask is 1 exactly where the token is not the pad. *)
Lemma ne_mask_lookup pad (t : tensor2 Z) b row i tok :
  t !! b = Some row ->
  row !! i = Some tok ->
  exists mrow m,
    ne_mask pad t !! b = Some mrow /\ mrow !! i = Some m /\
    (m = 1 <-> tok <> pad) /\ (m = 0 \/ m = 1).
Proof.
  intros Hb Hi. unfold ne_mask.
  exists ((fun tok => if tok =? pad then 0 else 1) <$> row),
         (if tok =? pad then 0 else 1).
  rewrite list_lookup_fmap, Hb, list_lookup_fmap, Hi. simpl.
  destruct (Z.eqb_spec tok pad) as [Heq|Hne].
  - split_and!; [done | done | split; intros; [lia | congruence] | by left].
  - split_and!; [done | done | split; intros; done | by right].
Qed.

Lemma ne_mask_shape pad (t : tensor2 Z) :
  shape0 (ne_mask pad t) = shape0 t /\ shape1 (ne_mask pad t) = shape1 t.
Proof.
  unfold ne_mask, shape0. rewrite length_fmap. split; [done|].
  destruct t; simpl; [done|]. by rewrite length_fmap.
Qed.

(** Lines 234-239 on a pair whose [actor] attribute is an actor and whose
    [critic] attribute is a critic: each is run once on the whole sequence
    and both outputs are cut to their last [action_len] positions. *)
Lemma ActorCritic_forward_slices
  init (d da dc : gmap string value) ic sequences sequences_mask action_len
  tr tr1 tr2 logits values :
  d !! "actor" = Some (VObj ActorModelC true da) ->
  d !! "critic" = Some (VObj CriticModelC ic dc) ->
  d !! "debug" = Some (VBool false) ->
  ActorModel_forward (VObj ActorModelC true da) sequences sequences_mask tr =
    (tr1, Ok logits) ->
  CriticModel_forward (VObj CriticModelC ic dc) sequences sequences_mask tr1 =
    (tr2, Ok values) ->
  ActorCritic_forward (VObj ActorCriticC init d) sequences sequences_mask
    action_len tr =
    (tr2, Ok (slice_cols_from (- action_len) logits,
              slice_cols_from (- action_len) values)).
Proof.
  intros Ha Hc Hdbg Hfa Hfc. unfold ActorCritic_forward.
  erewrite bind_ok by (by apply getattr_obj).
  erewrite bind_ok by exact Hfa.
  erewrite bind_ok by (by apply getattr_obj).
  erewrite bind_ok by exact Hfc.
  erewrite bind_ok by (by apply debug_prints_run).
  unfold ret. by rewrite app_nil_r.
Qed.

End Proofs.

(** ** Runs on the demo library *)

Lemma demo_actor_constructed pretrained :
  ActorModel pretrained false [] =
    ([EvLoadTokenizer pretrained; EvLoadCausalLM pretrained], Ok demo_actor).
Proof. destruct pretrained; vm_compute; reflexivity. Qed.

Lemma demo_pair_constructed :
  ActorCritic demo_actor demo_critic false [] = ([], Ok demo_pair).
Proof. vm_compute. reflexivity. Qed.

(** The theorem on actors without [config], at the actor the demo library
    builds for ["gpt2"]. *)
Lemma ActorModel_generate_raises_without_config_witness :
  ActorModel (Some "gpt2") false [] =
    ([EvLoadTokenizer (Some "gpt2"); EvLoadCausalLM (Some "gpt2")],
     Ok demo_actor) /\
  forall states state_mask t,
    ActorModel_generate demo_actor states state_mask t =
      (t, Raise AttributeError).
Proof.
  split; [vm_compute; reflexivity|].
  apply (ActorModel_generate_raises_without_config
           (Some "gpt2") false []
           [EvLoadTokenizer (Some "gpt2"); EvLoadCausalLM (Some "gpt2")]
           demo_actor).
  vm_compute. reflexivity.
Defined.

(** The delegation theorem at the same actor. *)
Lemma ActorModel_forward_delegates_witness :
  ActorModel (Some "gpt2") false [] =
    ([EvLoadTokenizer (Some "gpt2"); EvLoadCausalLM (Some "gpt2")],
     Ok demo_actor) /\
  exists h,
    AutoModelForCausalLM_from_pretrained (Some "gpt2") = Ok h /\
    forall ids mask tr,
      ActorModel_forward demo_actor ids mask tr =
        (tr ++ EvCausalForward h ids mask ::
           match causal_forward h ids mask with
           | Ok _ => if false then EvPrint <$> ActorModel_forward_labels else []
           | Raise _ => []
           end,
         causal_forward h ids mask).
Proof.
  split; [vm_compute; reflexivity|].
  apply (ActorModel_forward_delegates
           (Some "gpt2") false []
           [EvLoadTokenizer (Some "gpt2"); EvLoadCausalLM (Some "gpt2")]
           demo_actor).
  vm_compute. reflexivity.
Defined.

(** A mask of shape (1, 3) with token ids of shape (2, 3): the shapes
    differ, [ActorModel.forward] calls the model on the two tensors and
    returns its logits; nothing is raised. *)
Lemma ActorModel_forward_accepts_mismatched_mask :
  (shape0 [[1; 1; 1]], shape1 [[1; 1; 1]]) <>
    (shape0 [[11; 12; 13]; [21; 22; 23]], shape1 [[11; 12; 13]; [21; 22; 23]]) /\
  ActorModel (Some "gpt2") false [] =
    ([EvLoadTokenizer (Some "gpt2"); EvLoadCausalLM (Some "gpt2")],
     Ok demo_actor) /\
  ActorModel_forward demo_actor [[11; 12; 13]; [21; 22; 23]] [[1; 1; 1]] [] =
    ([EvCausalForward 1%nat [[11; 12; 13]; [21; 22; 23]] [[1; 1; 1]]],
     Ok [[[11; 12]; [12; 13]; [13; 14]]; [[21; 22]; [22; 23]; [23; 24]]]).
Proof.
  split; [vm_compute; discriminate|].
  split; vm_compute; reflexivity.
Qed.

(** C1, on the code.  The pair [ActorCritic(demo_actor, demo_critic)] holds
    the tuple [(demo_actor,)] under [actor]; [forward] on a sequence of
    length 4 with [action_len = 2] raises [TypeError] with an empty log:
    neither model is invoked and nothing is sliced.  On the pair that holds
    the actor itself, the same call invokes the actor's model and the
    critic's encoder once each and returns the last two positions of both
    outputs. *)
Theorem jointScore_raises_on_constructed_pair :
  ActorCritic demo_actor demo_critic false [] = ([], Ok demo_pair) /\
  ActorCritic_forward demo_pair [[5; 6; 7; 8]] [[1; 1; 1; 1]] 2 [] =
    ([], Raise TypeError) /\
  ActorCritic_forward demo_pair_bound [[5; 6; 7; 8]] [[1; 1; 1; 1]] 2 [] =
    ([EvCausalForward 1%nat [[5; 6; 7; 8]] [[1; 1; 1; 1]];
      EvEncoderForward 2%nat [[5; 6; 7; 8]] [[1; 1; 1; 1]];
      EvValueHead [3; 4; 3; 5]%nat],
     Ok ([[[7; 8]; [8; 9]]], [[7; 8]])).
Proof. split_and!; vm_compute; reflexivity. Qed.

(** C3, on the code.  On the actor from the constructor a prompt of length
    25 raises [AttributeError] with an empty log: line 69 fails on
    [self.config] and the budget of lines 76-84 is never computed.  With a
    [config] of [max_sequence_length = 20] and [max_tokens = 2] put in by
    hand, the same prompt has budget [min(2, 20 - 25) = -5] and raises the
    [ValueError] of line 82, the log still empty. *)
Theorem generate_never_reaches_budget_check :
  ActorModel_generate demo_actor [replicate 25 1] [replicate 25 1] [] =
    ([], Raise AttributeError) /\
  max_completion_of 2 20 (shape1 [replicate 25 1]) = -5 /\
  ActorModel_generate demo_actor_with_config
    [replicate 25 1] [replicate 25 1] [] =
    ([], Raise (ValueError budget_message)).
Proof. split_and!; vm_compute; reflexivity. Qed.

(** C7, on the code.  The demo tokenizer has no end-of-sequence token and
    the vocabulary's token of id 0 is ["<s>"].  [ActorModel(...)] returns an
    actor whose end-of-sequence token has id 0 and whose pad token is that
    same token, by text and by id; the text is the vocabulary's ["<s>"], the
    ["</s>"] of line 25 having been replaced by the assignment of line 26.
    [CriticModel(...)] raises [AttributeError] once tokenizer and encoder
    are loaded, at the assignment of [self.model]; lines 125-129 do not run
    and no critic tokenizer with a pad token comes into being. *)
Theorem critic_codec_is_never_built :
  ActorModel (Some "facebook/galactica-125m") false [] =
    ([EvLoadTokenizer (Some "facebook/galactica-125m");
      EvLoadCausalLM (Some "facebook/galactica-125m")], Ok demo_actor) /\
  (let* tokenizer := getattr demo_actor "tokenizer" in
   getattr tokenizer "eos_token_id") [] = ([], Ok (VInt 0)) /\
  (let* tokenizer := getattr demo_actor "tokenizer" in
   getattr tokenizer "pad_token_id") [] = ([], Ok (VInt 0)) /\
  (let* tokenizer := getattr demo_actor "tokenizer" in
   getattr tokenizer "eos_token") [] = ([], Ok (VStr "<s>")) /\
  (let* tokenizer := getattr demo_actor "tokenizer" in
   getattr tokenizer "pad_token") [] = ([], Ok (VStr "<s>")) /\
  CriticModel (Some "facebook/galactica-125m") true [] =
    ([EvLoadTokenizer (Some "facebook/galactica-125m");
      EvLoadEncoder (Some "facebook/galactica-125m")],
     Raise AttributeError).
Proof. split_and!; vm_compute; reflexivity. Qed.

(** ** Further properties of the three classes *)

Section Further.
Context {scalar : Type} `{!Transformers scalar}.

Abbreviation value := (value scalar).

Ltac bind_inv H :=
  let t := fresh "t" in
  let a := fresh "a" in
  let Hstep := fresh "Hstep" in
  apply bind_inv_ok in H as (t & a & Hstep & H).

Lemma getattr_pure (v : value) name tr tr' r :
  getattr v name tr = (tr', r) ->
  tr' = tr /\ forall t, getattr v name t = (t, r).
Proof.
  unfold getattr, raise, ret, lift.
  destruct v; try (intros [= <- <-]; by split).
  - destruct (d !! name); intros [= <- <-]; by split.
  - destruct (String.eqb name "config"); intros [= <- <-]; by split.
  - destruct (d !! name); intros [= <- <-]; by split.
Qed.

Lemma as_int_pure (v : value) tr tr' r :
  as_int v tr = (tr', r) -> tr' = tr /\ forall t, as_int v t = (t, r).
Proof.
  unfold as_int, ret, raise.
  destruct v; intros [= <- <-]; by split.
Qed.

Lemma shape1_nonneg {A} (t : list (list A)) : 0 <= shape1 t.
Proof. destruct t; simpl; lia. Qed.

(** *** The constructors *)

(** X1.  [ActorModel(pretrained, debug)] has three outcomes and no other: the
    tokenizer loader's exception, before the model is loaded; the model
    loader's exception; or an initialised object with exactly the
    attributes [tokenizer], [model] and [debug]. *)
Theorem ActorModel_constructor_outcome pretrained debug tr :
  ActorModel pretrained debug tr =
    match AutoTokenizer_from_pretrained pretrained [("padding_side", "left")] with
    | Raise e => (tr ++ [EvLoadTokenizer pretrained], Raise e)
    | Ok tok =>
        match AutoModelForCausalLM_from_pretrained pretrained with
        | Raise e =>
            (tr ++ [EvLoadTokenizer pretrained; EvLoadCausalLM pretrained],
             Raise e)
        | Ok h =>
            (tr ++ [EvLoadTokenizer pretrained; EvLoadCausalLM pretrained],
             Ok (VObj ActorModelC true
                   (<["debug" := VBool debug]>
                      (<["model" := VPretrained h]>
                         (<["tokenizer" := VTokenizer (with_eos_pad tok)]> ∅)))))
        end
    end.
Proof.
  unfold ActorModel, ActorModel___init__, new.
  rewrite (bind_ok _ _ tr tr (VObj ActorModelC true ∅)) by done.
  rewrite (bind_ok _ _ tr (tr ++ [EvLoadTokenizer pretrained]) tt) by done.
  destruct (AutoTokenizer_from_pretrained pretrained [("padding_side", "left")])
    as [tok|e]; [|by erewrite bind_raise by done].
  erewrite bind_ok by done.
  erewrite bind_ok by (by apply setattr_plain).
  erewrite bind_ok by (apply eos_pad_setup_obj, lookup_insert_eq).
  rewrite insert_insert_eq.
  erewrite bind_ok by done.
  destruct (AutoModelForCausalLM_from_pretrained pretrained) as [h|e].
  - erewrite bind_ok by done.
    erewrite bind_ok by apply setattr_initialised.
    by rewrite setattr_initialised, <- app_assoc.
  - erewrite bind_raise by done. by rewrite <- app_assoc.
Qed.

(** X2.  On every actor the constructor returns: the end-of-sequence token
    is the loaded one if there was one, and otherwise the vocabulary's token
    of id 0, not the ["</s>"] of line 25, which line 26 replaces; the pad
    token is the vocabulary's token for the end-of-sequence id, whatever pad
    token was loaded; vocabulary and sides are as loaded.  Where the
    vocabulary maps the end-of-sequence token to an id and that id back to
    the token, pad token and pad id are the end-of-sequence token and its
    id. *)
Theorem ActorModel_pad_token_is_eos_token pretrained debug tr tr' self :
  ActorModel pretrained debug tr = (tr', Ok self) ->
  exists loaded tok,
    AutoTokenizer_from_pretrained pretrained [("padding_side", "left")] =
      Ok loaded /\
    (forall t, getattr self "tokenizer" t = (t, Ok (VTokenizer tok))) /\
    eos_token tok =
      match eos_token loaded with
      | Some token => Some token
      | None => convert_ids_to_tokens loaded 0
      end /\
    pad_token tok =
      match eos_token_id tok with
      | Some i => convert_ids_to_tokens loaded i
      | None => None
      end /\
    convert_ids_to_tokens tok = convert_ids_to_tokens loaded /\
    convert_tokens_to_ids tok = convert_tokens_to_ids loaded /\
    padding_side tok = padding_side loaded /\
    truncation_side tok = truncation_side loaded /\
    (forall token i,
       eos_token tok = Some token ->
       convert_tokens_to_ids loaded token = Some i ->
       convert_ids_to_tokens loaded i = Some token ->
       pad_token tok = Some token /\
       eos_token_id tok = Some i /\ pad_token_id tok = Some i).
Proof.
  intros Hrun.
  destruct (ActorModel_inv _ _ _ _ _ Hrun) as (loaded & h & Hloaded & _ & _ & ->).
  exists loaded, (with_eos_pad loaded).
  split; [done|]. split.
  { intros t. apply getattr_obj.
    rewrite !lookup_insert_ne by done. apply lookup_insert_eq. }
  destruct (with_eos_pad_vocabulary loaded) as (Hi2t & Ht2i & Hside & Htside).
  pose proof (with_eos_pad_eos loaded) as Heos.
  pose proof (with_eos_pad_pad loaded) as Hpad.
  split_and!; try done.
  intros token i Htoken Hid Hback.
  assert (Heid : eos_token_id (with_eos_pad loaded) = Some i).
  { unfold eos_token_id. by rewrite Htoken, Ht2i. }
  rewrite Heid in Hpad. rewrite Hback in Hpad.
  split_and!; [done | done |].
  unfold pad_token_id. by rewrite Hpad, Ht2i.
Qed.

(** X3.  The end-of-sequence and pad assignments, shared by the two
    constructors, look at the end-of-sequence token and the vocabulary only:
    two objects whose tokenizers agree on these leave with tokenizers that
    agree on end-of-sequence and pad token and id, whatever their classes,
    their sides and their former pad tokens. *)
Theorem eos_pad_setup_uniform
  c1 i1 (d1 : gmap string value) c2 i2 (d2 : gmap string value)
  tok1 tok2 tr1 tr2 :
  d1 !! "tokenizer" = Some (VTokenizer tok1) ->
  d2 !! "tokenizer" = Some (VTokenizer tok2) ->
  eos_token tok1 = eos_token tok2 ->
  convert_ids_to_tokens tok1 = convert_ids_to_tokens tok2 ->
  convert_tokens_to_ids tok1 = convert_tokens_to_ids tok2 ->
  exists self1 self2 out1 out2,
    eos_pad_setup (VObj c1 i1 d1) tr1 = (tr1, Ok self1) /\
    eos_pad_setup (VObj c2 i2 d2) tr2 = (tr2, Ok self2) /\
    self_tokenizer self1 tr1 = (tr1, Ok out1) /\
    self_tokenizer self2 tr2 = (tr2, Ok out2) /\
    eos_token out1 = eos_token out2 /\
    eos_token_id out1 = eos_token_id out2 /\
    pad_token out1 = pad_token out2 /\
    pad_token_id out1 = pad_token_id out2.
Proof.
  intros H1 H2 Heos Hi2t Ht2i.
  eexists _, _, (with_eos_pad tok1), (with_eos_pad tok2).
  split; [by apply eos_pad_setup_obj|].
  split; [by apply eos_pad_setup_obj|].
  split; [apply self_tokenizer_obj, lookup_insert_eq|].
  split; [apply self_tokenizer_obj, lookup_insert_eq|].
  destruct tok1 as [eos1 pad1 side1 tside1 i2t1 t2i1].
  destruct tok2 as [eos2 pad2 side2 tside2 i2t2 t2i2].
  simpl in Heos, Hi2t, Ht2i. subst eos2 i2t2 t2i2.
  destruct eos1 as [token|]; split_and!; reflexivity.
Qed.

(** X4.  Running the assignments a second time changes nothing. *)
Theorem eos_pad_setup_idempotent c init (d : gmap string value) tok tr :
  d !! "tokenizer" = Some (VTokenizer tok) ->
  exists self,
    eos_pad_setup (VObj c init d) tr = (tr, Ok self) /\
    eos_pad_setup self tr = (tr, Ok self).
Proof.
  intros Hd. eexists. split; [by apply eos_pad_setup_obj|].
  erewrite eos_pad_setup_obj by apply lookup_insert_eq.
  rewrite insert_insert_eq. do 3 f_equal.
  destruct tok as [[token|] pad side tside i2t t2i]; [reflexivity|].
  unfold with_eos_pad at 2. simpl.
  destruct (i2t 0) as [token0|] eqn:Hzero.
  - unfold with_eos_pad, eos_token_id, set_pad_token_id, set_eos_token_id,
      set_pad_token, set_eos_token. simpl. by rewrite ?Hzero.
  - unfold with_eos_pad, eos_token_id, set_pad_token_id, set_eos_token_id,
      set_pad_token, set_eos_token. simpl. by rewrite ?Hzero.
Qed.

(** X5.  [CriticModel(pretrained, debug)] has three outcomes and no other, all
    exceptions: the tokenizer loader's, the encoder loader's, or, once both
    loaders have returned, the [AttributeError] of assigning a module to an
    object whose [nn.Module.__init__] has not run. *)
Theorem CriticModel_constructor_outcome pretrained debug tr :
  CriticModel pretrained debug tr =
    match AutoTokenizer_from_pretrained pretrained
            [("padding_side", "left"); ("truncation_side", "left")] with
    | Raise e => (tr ++ [EvLoadTokenizer pretrained], Raise e)
    | Ok _ =>
        (tr ++ [EvLoadTokenizer pretrained; EvLoadEncoder pretrained],
         Raise match AutoModel_from_pretrained pretrained with
               | Raise e => e
               | Ok _ => AttributeError
               end)
    end.
Proof.
  unfold CriticModel, CriticModel___init__, new.
  erewrite bind_ok by done.
  destruct (AutoTokenizer_from_pretrained pretrained
              [("padding_side", "left"); ("truncation_side", "left")])
    as [tok|e]; [|by erewrite bind_raise by done].
  erewrite bind_ok by done.
  erewrite bind_ok by (by apply setattr_plain).
  erewrite bind_ok by done.
  destruct (AutoModel_from_pretrained pretrained) as [h|e].
  - erewrite bind_ok by done.
    erewrite bind_raise by (by apply setattr_module_uninitialised).
    by rewrite <- app_assoc.
  - erewrite bind_raise by done. by rewrite <- app_assoc.
Qed.

(** X6.  Had [nn.Module.__init__] run on the object, the body would get as far as
    line 141: with both loaders, the configuration's
    [model_head_hidden_size] and the three layers before it in place, it
    raises [NameError] for [Rearrange]. *)
Theorem CriticModel_init_reaches_Rearrange
  pretrained debug tok h hidden_size l1 l2 l3 tr :
  AutoTokenizer_from_pretrained pretrained
    [("padding_side", "left"); ("truncation_side", "left")] = Ok tok ->
  AutoModel_from_pretrained pretrained = Ok h ->
  (forall t, getattr (model_config h) "model_head_hidden_size" t =
               (t, Ok hidden_size)) ->
  torch_nn_Linear hidden_size hidden_size = Ok l1 ->
  torch_nn_ReLU = Ok l2 ->
  torch_nn_Linear hidden_size (VInt 1) = Ok l3 ->
  CriticModel___init__ (VObj CriticModelC true ∅) pretrained debug tr =
    (tr ++ [EvLoadTokenizer pretrained; EvLoadEncoder pretrained],
     Raise (NameError "Rearrange")).
Proof.
  intros Htok Hh Hsize Hl1 Hl2 Hl3. unfold CriticModel___init__.
  erewrite bind_ok by done.
  erewrite bind_ok by (unfold lift; by rewrite Htok).
  erewrite bind_ok by apply setattr_initialised.
  erewrite bind_ok by done.
  erewrite bind_ok by (unfold lift; by rewrite Hh).
  erewrite bind_ok by apply setattr_initialised.
  erewrite bind_ok; last first.
  { apply eos_pad_setup_obj.
    rewrite lookup_insert_ne by done. apply lookup_insert_eq. }
  erewrite bind_ok by apply setattr_initialised.
  erewrite bind_ok; last first.
  { apply getattr_obj. rewrite !lookup_insert_ne by done.
    apply lookup_insert_eq. }
  erewrite bind_ok by done.
  erewrite bind_ok by apply setattr_initialised.
  erewrite bind_ok by (apply getattr_obj, lookup_insert_eq).
  erewrite bind_ok by apply Hsize.
  erewrite bind_ok by (unfold lift; by rewrite Hl1).
  erewrite bind_ok by (unfold lift; by rewrite Hl2).
  erewrite bind_ok by (unfold lift; by rewrite Hl3).
  erewrite bind_raise by done.
  by rewrite <- app_assoc.
Qed.

(** *** [ActorModel.generate] *)

(** X8.  A prompt at least as long as [max_sequence_length], or a [max_tokens] of
    zero or less, is refused with the [ValueError] of line 82 before the
    sampler is called. *)
Theorem ActorModel_generate_rejects_full_prompt
  c init (d cfg : gmap string value) temperature msl mt states state_mask tr :
  d !! "config" = Some (VConfig cfg) ->
  cfg !! "temperature" = Some temperature ->
  cfg !! "max_sequence_length" = Some (VInt msl) ->
  cfg !! "max_tokens" = Some (VInt mt) ->
  msl <= shape1 states \/ mt <= 0 ->
  ActorModel_generate (VObj c init d) states state_mask tr =
    (tr, Raise (ValueError budget_message)).
Proof.
  intros Hcfg Htemp Hmsl Hmt Hfull.
  eapply ActorModel_generate_budget_exhausted; eauto.
  unfold max_completion_of. lia.
Qed.

(** X9.  Refusal is monotone in the prompt length: when a prompt has no budget
    left, no prompt at least as long has. *)
Theorem ActorModel_generate_rejects_longer_prompts
  c init (d cfg : gmap string value) temperature msl mt
  (states1 states2 state_mask : tensor2 Z) tr :
  d !! "config" = Some (VConfig cfg) ->
  cfg !! "temperature" = Some temperature ->
  cfg !! "max_sequence_length" = Some (VInt msl) ->
  cfg !! "max_tokens" = Some (VInt mt) ->
  max_completion_of mt msl (shape1 states1) <= 0 ->
  shape1 states1 <= shape1 states2 ->
  ActorModel_generate (VObj c init d) states2 state_mask tr =
    (tr, Raise (ValueError budget_message)).
Proof.
  intros Hcfg Htemp Hmsl Hmt Hbudget Hlen.
  eapply ActorModel_generate_budget_exhausted; eauto.
  pose proof (max_completion_of_antitone mt msl _ _ Hlen). lia.
Qed.

(** X10.  For a prompt tensor with at least one row: with a positive budget
    the sampler is called exactly once, and the [max_length] it is given
    asks for at least one new token, never exceeds [max_sequence_length] and
    never asks for more than [max_tokens] new tokens; an exception of the
    sampler is the exception of [generate]. *)
Theorem ActorModel_generate_sampler_call
  c init (d cfg : gmap string value) temperature msl mt h
  (states state_mask : tensor2 Z) tr :
  states <> [] ->
  d !! "config" = Some (VConfig cfg) ->
  cfg !! "temperature" = Some temperature ->
  cfg !! "max_sequence_length" = Some (VInt msl) ->
  cfg !! "max_tokens" = Some (VInt mt) ->
  d !! "model" = Some (VPretrained h) ->
  d !! "debug" = Some (VBool false) ->
  0 < max_completion_of mt msl (shape1 states) ->
  exists max_length,
    shape1 states < max_length /\
    max_length <= msl /\
    max_length <= shape1 states + mt /\
    ActorModel_generate (VObj c init d) states state_mask tr =
      (tr ++ [EvCausalGenerate h states state_mask max_length],
       match causal_generate h states state_mask temperature max_length with
       | Ok sequences =>
           Ok (slice_cols_from (shape1 states) sequences, sequences)
       | Raise e => Raise e
       end).
Proof.
  intros _ Hcfg Htemp Hmsl Hmt Hmodel Hdbg Hpos.
  exists (shape1 states + max_completion_of mt msl (shape1 states)).
  split_and!; try (unfold max_completion_of in *; lia).
  by eapply ActorModel_generate_samples.
Qed.

(** X11.  Whatever object [generate] runs on: when it returns, [actions] is
    [sequences] without its first [states.shape[1]] columns, row by row, so
    that each row of [sequences] is its first columns followed by its row of
    [actions]. *)
Theorem ActorModel_generate_actions_are_suffix
  (self : value) states state_mask tr tr' actions sequences :
  ActorModel_generate self states state_mask tr =
    (tr', Ok (actions, sequences)) ->
  length actions = length sequences /\
  forall b row,
    sequences !! b = Some row ->
    exists arow,
      actions !! b = Some arow /\
      take (Z.to_nat (shape1 states)) row ++ arow = row.
Proof.
  unfold ActorModel_generate. intros Hrun.
  do 8 bind_inv Hrun.
  destruct (max_completion_of _ _ _ <=? 0); [discriminate|].
  do 3 bind_inv Hrun.
  injection Hrun as _ <- <-.
  split; [unfold slice_cols_from; by rewrite length_fmap|].
  intros b row Hrow.
  exists (py_slice_from (shape1 states) row).
  split; [by apply slice_cols_from_lookup|].
  rewrite <- (Z2Nat.id (shape1 states)) at 2 by apply shape1_nonneg.
  apply py_slice_from_suffix.
Qed.

(** *** [CriticModel.forward] and [CriticModel.get_reward] *)

(** X12.  On an object that carries an encoder and a value head, [forward] calls
    the encoder once and then the head once on its hidden states.  An
    exception of the encoder ends the call before the head is applied, an
    exception of the head ends it before any print; otherwise the head's
    output is returned as it is. *)
Theorem CriticModel_forward_outcome
  c init (d : gmap string value) h layers (dbg : bool) ids mask tr :
  d !! "model" = Some (VPretrained h) ->
  d !! "value_head" = Some (VSequential layers) ->
  d !! "debug" = Some (VBool dbg) ->
  CriticModel_forward (VObj c init d) ids mask tr =
    match encoder_forward h ids mask with
    | Raise e => (tr ++ [EvEncoderForward h ids mask], Raise e)
    | Ok hidden =>
        match sequential_forward layers hidden with
        | Raise e =>
            (tr ++ [EvEncoderForward h ids mask; EvValueHead layers], Raise e)
        | Ok rewards =>
            (tr ++ [EvEncoderForward h ids mask; EvValueHead layers] ++
               (if dbg then EvPrint <$> CriticModel_forward_labels else []),
             Ok rewards)
        end
    end.
Proof.
  intros Hmodel Hhead Hdbg. unfold CriticModel_forward.
  erewrite bind_ok by (by apply getattr_obj).
  unfold call_encoder.
  destruct (encoder_forward h ids mask) as [hidden|e] eqn:Henc.
  - erewrite (bind_ok (bind _ _)); last first.
    { by erewrite bind_ok by done. }
    erewrite bind_ok by (by apply getattr_obj).
    unfold call_head.
    destruct (sequential_forward layers hidden) as [rewards|e] eqn:Hseq.
    + erewrite (bind_ok (bind _ _)); last first.
      { by erewrite bind_ok by done. }
      erewrite bind_ok by (by apply debug_prints_run).
      unfold ret. by rewrite <- !app_assoc.
    + erewrite bind_raise; last first.
      { by erewrite bind_ok by done. }
      by rewrite <- app_assoc.
  - erewrite bind_raise; [done|].
    by erewrite bind_ok by done.
Qed.

Lemma last_col_ok {A} (t : list (list A)) xs :
  last_col t = Ok xs ->
  length xs = length t /\
  forall b row, t !! b = Some row ->
    exists x, xs !! b = Some x /\ last row = Some x.
Proof.
  revert xs. induction t as [|r t IH]; intros xs; simpl.
  - intros [= <-]. split; [done|]. intros b row Hb. by destruct b.
  - destruct (last r) as [x|] eqn:Hlast; [|discriminate].
    destruct (last_col t) as [ys|e]; [|discriminate].
    intros [= <-]. destruct (IH ys eq_refl) as [Hlen Hrows].
    split; [simpl; by rewrite Hlen|].
    intros [|b] row Hb; simpl in *.
    + injection Hb as <-. by exists x.
    + by apply Hrows.
Qed.

Lemma py_slice_from_minus_one {A} (row : list A) x :
  last row = Some x -> py_slice_from (-1) row = [x].
Proof.
  intros Hlast. apply last_Some in Hlast as [row' ->].
  unfold py_slice_from. rewrite length_app. simpl.
  replace (Z.to_nat (Z.max (Z.of_nat (length row' + 1) + -1) 0))
    with (length row' + 0)%nat by lia.
  by rewrite drop_app_add.
Qed.

Lemma last_col_slice {A} (t : list (list A)) xs :
  last_col t = Ok xs ->
  slice_cols_from (-1) t = (fun x => [x]) <$> xs.
Proof.
  revert xs. induction t as [|r t IH]; intros xs; simpl.
  - by intros [= <-].
  - destruct (last r) as [x|] eqn:Hlast; [|discriminate].
    destruct (last_col t) as [ys|e]; [|discriminate].
    intros [= <-]. unfold slice_cols_from in *. simpl.
    by rewrite (py_slice_from_minus_one _ _ Hlast), (IH ys eq_refl).
Qed.

Lemma last_col_empty_row {A} (t : list (list A)) :
  [] ∈ t -> last_col t = Raise IndexError.
Proof.
  induction t as [|r t IH]; [by intros ?%elem_of_nil|].
  intros [<-|Hin]%elem_of_cons; simpl; [done|].
  destruct (last r); [|done]. by rewrite (IH Hin).
Qed.

(** X13.  When [get_reward] returns, it returns one number per sequence, the
    reward [forward] gives for the last position of that sequence; these are
    the values [rewards[:, -1:]] holds, the cut [ActorCritic.forward] makes
    for [action_len = 1]. *)
Theorem CriticModel_get_reward_last_position
  (self : value) ids mask tr tr' xs :
  CriticModel_get_reward self ids mask tr = (tr', Ok xs) ->
  exists rewards,
    CriticModel_forward self ids mask tr = (tr', Ok rewards) /\
    length xs = length rewards /\
    (forall b row, rewards !! b = Some row ->
       exists x, xs !! b = Some x /\ last row = Some x) /\
    slice_cols_from (-1) rewards = (fun x => [x]) <$> xs.
Proof.
  unfold CriticModel_get_reward. intros Hrun. bind_inv Hrun.
  unfold lift in Hrun. injection Hrun as <- Hcol.
  exists a. split; [done|].
  destruct (last_col_ok _ _ Hcol) as [Hlen Hrows].
  split_and!; [done | done | by apply last_col_slice].
Qed.

(** X14.  When [forward] returns rewards with a row of length zero (a sequence
    without positions), [get_reward] raises [IndexError]. *)
Theorem CriticModel_get_reward_empty_sequence
  (self : value) ids mask tr tr' (rewards : tensor2 scalar) :
  CriticModel_forward self ids mask tr = (tr', Ok rewards) ->
  [] ∈ rewards ->
  CriticModel_get_reward self ids mask tr = (tr', Raise IndexError).
Proof.
  intros Hfw Hin. unfold CriticModel_get_reward.
  rewrite (bind_ok _ _ _ _ _ Hfw). unfold lift.
  by rewrite last_col_empty_row.
Qed.

(** *** [ActorCritic.forward] and [ActorCritic.generate] *)

Lemma py_slice_from_whole {A} (n : Z) (row : list A) :
  n = 0 \/ Z.of_nat (length row) <= n ->
  py_slice_from (- n) row = row.
Proof.
  intros Hn. unfold py_slice_from.
  destruct (Z.ltb_spec (- n) 0) as [Hneg|Hpos].
  - replace (Z.to_nat (Z.max (Z.of_nat (length row) + - n) 0)) with 0%nat by lia.
    done.
  - replace (Z.to_nat (Z.min (- n) (Z.of_nat (length row)))) with 0%nat by lia.
    done.
Qed.

Lemma slice_cols_from_whole {A} (n : Z) (t : list (list A)) :
  n = 0 \/ Forall (fun row => Z.of_nat (length row) <= n) t ->
  slice_cols_from (- n) t = t.
Proof.
  intros Hn. unfold slice_cols_from.
  induction t as [|row t IH]; [done|]. simpl. f_equal.
  - apply py_slice_from_whole.
    destruct Hn as [->|Hall]; [by left|right]. by inversion Hall.
  - apply IH. destruct Hn as [->|Hall]; [by left|right]. by inversion Hall.
Qed.

Lemma slice_cols_from_last_rows {A} (n : Z) (t : list (list A)) :
  0 < n ->
  Forall (fun row => n <= Z.of_nat (length row)) t ->
  length (slice_cols_from (- n) t) = length t /\
  forall b row, t !! b = Some row ->
    slice_cols_from (- n) t !! b = Some (drop (length row - Z.to_nat n) row) /\
    Z.of_nat (length (drop (length row - Z.to_nat n) row)) = n.
Proof.
  intros Hn Hall. split; [unfold slice_cols_from; by rewrite length_fmap|].
  intros b row Hb.
  assert (Hrow : 0 < n <= Z.of_nat (length row)).
  { split; [done|]. by apply (Forall_lookup_1 _ _ _ _ Hall Hb). }
  destruct (py_slice_from_last n row Hrow) as [Heq Hlen].
  rewrite (slice_cols_from_lookup _ _ _ _ Hb), <- Heq. by split.
Qed.

(** X15.  On a pair that holds an actor and a critic, with [action_len] positive
    and no longer than the rows of either output, [forward] returns, for
    every sequence of the batch, exactly the last [action_len] logit
    positions and the last [action_len] values. *)
Theorem ActorCritic_forward_last_positions
  init (d da dc : gmap string value) ic sequences sequences_mask action_len
  tr tr1 tr2 (logits : tensor3 scalar) (values : tensor2 scalar) :
  d !! "actor" = Some (VObj ActorModelC true da) ->
  d !! "critic" = Some (VObj CriticModelC ic dc) ->
  d !! "debug" = Some (VBool false) ->
  ActorModel_forward (VObj ActorModelC true da) sequences sequences_mask tr =
    (tr1, Ok logits) ->
  CriticModel_forward (VObj CriticModelC ic dc) sequences sequences_mask tr1 =
    (tr2, Ok values) ->
  0 < action_len ->
  Forall (fun row => action_len <= Z.of_nat (length row)) logits ->
  Forall (fun row => action_len <= Z.of_nat (length row)) values ->
  exists real_logits real_values,
    ActorCritic_forward (VObj ActorCriticC init d) sequences sequences_mask
      action_len tr = (tr2, Ok (real_logits, real_values)) /\
    length real_logits = length logits /\
    length real_values = length values /\
    (forall b row, logits !! b = Some row ->
       real_logits !! b = Some (drop (length row - Z.to_nat action_len) row) /\
       Z.of_nat (length (drop (length row - Z.to_nat action_len) row)) =
         action_len) /\
    (forall b row, values !! b = Some row ->
       real_values !! b = Some (drop (length row - Z.to_nat action_len) row) /\
       Z.of_nat (length (drop (length row - Z.to_nat action_len) row)) =
         action_len).
Proof.
  intros Ha Hc Hdbg Hfa Hfc Hpos Hlogits Hvalues.
  eexists _, _. split.
  { eapply ActorCritic_forward_slices; eauto. }
  destruct (slice_cols_from_last_rows action_len logits Hpos Hlogits)
    as [Hlen1 Hrows1].
  destruct (slice_cols_from_last_rows action_len values Hpos Hvalues)
    as [Hlen2 Hrows2].
  by split_and!.
Qed.

(** X16.  The cut [[:, -action_len:]] does not shorten anything when [action_len]
    is zero ([-0] is [0]) or at least the row length: [forward] then returns
    the outputs for the whole sequence, prompt positions included. *)
Theorem ActorCritic_forward_action_len_edge
  init (d da dc : gmap string value) ic sequences sequences_mask action_len
  tr tr1 tr2 (logits : tensor3 scalar) (values : tensor2 scalar) :
  d !! "actor" = Some (VObj ActorModelC true da) ->
  d !! "critic" = Some (VObj CriticModelC ic dc) ->
  d !! "debug" = Some (VBool false) ->
  ActorModel_forward (VObj ActorModelC true da) sequences sequences_mask tr =
    (tr1, Ok logits) ->
  CriticModel_forward (VObj CriticModelC ic dc) sequences sequences_mask tr1 =
    (tr2, Ok values) ->
  action_len = 0 \/
    (Forall (fun row => Z.of_nat (length row) <= action_len) logits /\
     Forall (fun row => Z.of_nat (length row) <= action_len) values) ->
  ActorCritic_forward (VObj ActorCriticC init d) sequences sequences_mask
    action_len tr = (tr2, Ok (logits, values)).
Proof.
  intros Ha Hc Hdbg Hfa Hfc Hedge.
  erewrite ActorCritic_forward_slices by eauto.
  rewrite !slice_cols_from_whole; [done| |];
    (destruct Hedge as [->|[Hl Hv]]; [by left|by right]).
Qed.

(** X17.  A negative [action_len] cuts from the front instead: [-(-k)] is [k], so
    the first [k] positions are dropped and the rest is returned. *)
Theorem ActorCritic_forward_negative_action_len
  init (d da dc : gmap string value) ic sequences sequences_mask (k : nat)
  tr tr1 tr2 (logits : tensor3 scalar) (values : tensor2 scalar) :
  d !! "actor" = Some (VObj ActorModelC true da) ->
  d !! "critic" = Some (VObj CriticModelC ic dc) ->
  d !! "debug" = Some (VBool false) ->
  ActorModel_forward (VObj ActorModelC true da) sequences sequences_mask tr =
    (tr1, Ok logits) ->
  CriticModel_forward (VObj CriticModelC ic dc) sequences sequences_mask tr1 =
    (tr2, Ok values) ->
  ActorCritic_forward (VObj ActorCriticC init d) sequences sequences_mask
    (- Z.of_nat k) tr = (tr2, Ok (drop k <$> logits, drop k <$> values)).
Proof.
  intros Ha Hc Hdbg Hfa Hfc.
  erewrite ActorCritic_forward_slices by eauto.
  assert (Hdrop : forall A (row : list A),
            py_slice_from (- - Z.of_nat k) row = drop k row).
  { intros A row. unfold py_slice_from.
    destruct (Z.ltb_spec (- - Z.of_nat k) 0) as [Hneg|_]; [lia|].
    destruct (Z.min_spec (- - Z.of_nat k) (Z.of_nat (length row)))
      as [[Hlt ->]|[Hge ->]].
    - by replace (Z.to_nat (- - Z.of_nat k)) with k by lia.
    - rewrite Nat2Z.id, drop_all. symmetry. apply drop_ge. lia. }
  unfold slice_cols_from.
  do 3 f_equal; apply list_fmap_ext; intros; apply Hdrop.
Qed.

(** X18.  With the default [critic=None] under [critic], [forward] raises
    [AttributeError], and only after the actor has been run on the whole
    sequence. *)
Theorem ActorCritic_forward_without_critic
  init (d da : gmap string value) sequences sequences_mask action_len
  tr tr1 (logits : tensor3 scalar) :
  d !! "actor" = Some (VObj ActorModelC true da) ->
  d !! "critic" = Some VNone ->
  ActorModel_forward (VObj ActorModelC true da) sequences sequences_mask tr =
    (tr1, Ok logits) ->
  ActorCritic_forward (VObj ActorCriticC init d) sequences sequences_mask
    action_len tr = (tr1, Raise AttributeError).
Proof.
  intros Ha Hc Hfa. unfold ActorCritic_forward.
  erewrite bind_ok by (by apply getattr_obj).
  erewrite bind_ok by exact Hfa.
  erewrite bind_ok by (by apply getattr_obj).
  by erewrite bind_raise by done.
Qed.

(** X19.  When the actor's model raises, [forward] raises the same exception and
    the critic's encoder is never called. *)
Theorem ActorCritic_forward_actor_error
  init (d da : gmap string value) h sequences sequences_mask action_len tr e :
  d !! "actor" = Some (VObj ActorModelC true da) ->
  da !! "model" = Some (VPretrained h) ->
  causal_forward h sequences sequences_mask = Raise e ->
  ActorCritic_forward (VObj ActorCriticC init d) sequences sequences_mask
    action_len tr =
    (tr ++ [EvCausalForward h sequences sequences_mask], Raise e).
Proof.
  intros Ha Hmodel Hfw. unfold ActorCritic_forward.
  erewrite bind_ok by (by apply getattr_obj).
  erewrite bind_raise; [done|].
  unfold call_actor, ActorModel_forward.
  erewrite bind_ok by (by apply getattr_obj).
  erewrite bind_raise; [done|].
  unfold call_causal. erewrite bind_ok by done.
  unfold lift. by rewrite Hfw.
Qed.

Lemma pad_mask_inv (pad : value) sequence tr tr' mask :
  pad_mask pad sequence tr = (tr', Ok mask) ->
  tr' = tr /\ exists p, as_int pad tr = (tr, Ok p) /\ mask = ne_mask p sequence.
Proof.
  unfold pad_mask, as_int, ret, raise.
  destruct pad; try discriminate; intros [= <- <-]; eauto.
Qed.

Lemma ActorCritic_generate_inv
  (self : value) states state_mask tr tr'
  actions actions_logits values sequence sequences_mask :
  ActorCritic_generate self states state_mask tr =
    (tr', Ok (actions, actions_logits, values, sequence, sequences_mask)) ->
  exists actor tokenizer pad p t1 t2,
    (forall t, getattr self "actor" t = (t, Ok actor)) /\
    ActorModel_generate actor states state_mask tr =
      (t1, Ok (actions, sequence)) /\
    (forall t, getattr actor "tokenizer" t = (t, Ok tokenizer)) /\
    (forall t, getattr tokenizer "pad_token_id" t = (t, Ok pad)) /\
    as_int pad t1 = (t1, Ok p) /\
    sequences_mask = ne_mask p sequence /\
    ActorCritic_forward self sequence sequences_mask (shape1 actions) t1 =
      (t2, Ok (actions_logits, values)).
Proof.
  unfold ActorCritic_generate. intros Hrun.
  apply bind_inv_ok in Hrun as (t0 & actor & Hactor & Hrun).
  apply getattr_pure in Hactor as [-> Hactor].
  apply bind_inv_ok in Hrun as (t1 & [acts seq] & Hgen & Hrun).
  apply bind_inv_ok in Hrun as (t1' & actor' & Hactor' & Hrun).
  apply getattr_pure in Hactor' as [-> Hactor'].
  pose proof (Hactor' []) as Hsame. rewrite Hactor in Hsame.
  injection Hsame as <-.
  apply bind_inv_ok in Hrun as (t1' & tokenizer & Htok & Hrun).
  apply getattr_pure in Htok as [-> Htok].
  apply bind_inv_ok in Hrun as (t1' & pad & Hpad & Hrun).
  apply getattr_pure in Hpad as [-> Hpad].
  apply bind_inv_ok in Hrun as (t1' & mask & Hmask & Hrun).
  apply pad_mask_inv in Hmask as [-> (p & Hp & ->)].
  apply bind_inv_ok in Hrun as (t2 & [lg vs] & Hfw & Hrun).
  apply bind_inv_ok in Hrun as (t3 & [] & Hprints & Hrun).
  injection Hrun as _ <- <- <- <- <-.
  assert (Hgen' : ActorModel_generate actor states state_mask tr =
                    (t1, Ok (acts, seq))).
  { unfold method_generate in Hgen.
    destruct actor as [| | | | | | | | | | |c init d]; try discriminate.
    destruct c; try discriminate. exact Hgen. }
  exists actor, tokenizer, pad, p, t1, t2. by split_and!.
Qed.

(** X20.  Whatever pair [generate] runs on: when it returns, the five results fit
    together.  [actions] and [sequence] are what the actor's [generate]
    returned for the states; the mask is computed from [sequence] and the
    actor tokenizer's pad id, not from [state_mask]; the logits and values
    are those of the pair's [forward] on [sequence] with that mask and with
    [action_len] the width of [actions]. *)
Theorem ActorCritic_generate_composition
  (self : value) states state_mask tr tr'
  actions actions_logits values sequence sequences_mask :
  ActorCritic_generate self states state_mask tr =
    (tr', Ok (actions, actions_logits, values, sequence, sequences_mask)) ->
  exists actor tokenizer pad p t1 t2,
    (forall t, getattr self "actor" t = (t, Ok actor)) /\
    ActorModel_generate actor states state_mask tr =
      (t1, Ok (actions, sequence)) /\
    (forall t, getattr actor "tokenizer" t = (t, Ok tokenizer)) /\
    (forall t, getattr tokenizer "pad_token_id" t = (t, Ok pad)) /\
    as_int pad t1 = (t1, Ok p) /\
    sequences_mask = ne_mask p sequence /\
    ActorCritic_forward self sequence sequences_mask (shape1 actions) t1 =
      (t2, Ok (actions_logits, values)).
Proof. apply ActorCritic_generate_inv. Qed.

(** C2.  Whatever pair [generate] runs on: when it returns, the mask is an
    integer tensor of the shape of the sequence that holds only 0 and 1, and
    at every batch index and position it is 1 exactly when the token of the
    sequence there differs from the integer read from
    [self.actor.tokenizer.pad_token_id]. *)
Theorem rollout_mask_agrees_with_pad
  (self : value) states state_mask tr tr'
  actions actions_logits values sequence sequences_mask :
  ActorCritic_generate self states state_mask tr =
    (tr', Ok (actions, actions_logits, values, sequence, sequences_mask)) ->
  exists actor tokenizer pad pad_token_id,
    (forall t, getattr self "actor" t = (t, Ok actor)) /\
    (forall t, getattr actor "tokenizer" t = (t, Ok tokenizer)) /\
    (forall t, getattr tokenizer "pad_token_id" t = (t, Ok pad)) /\
    (forall t, as_int pad t = (t, Ok pad_token_id)) /\
    shape0 sequences_mask = shape0 sequence /\
    shape1 sequences_mask = shape1 sequence /\
    forall b row i tok,
      sequence !! b = Some row ->
      row !! i = Some tok ->
      exists mrow m,
        sequences_mask !! b = Some mrow /\ mrow !! i = Some m /\
        (m = 1 <-> tok <> pad_token_id) /\ (m = 0 \/ m = 1).
Proof.
  intros Hrun.
  destruct (ActorCritic_generate_inv _ _ _ _ _ _ _ _ _ _ Hrun)
    as (actor & tokenizer & pad & p & t1 & _ & Hactor & _ & Htok & Hpad &
        Hp & -> & _).
  apply as_int_pure in Hp as [_ Hp].
  exists actor, tokenizer, pad, p.
  destruct (ne_mask_shape p sequence) as [H0 H1].
  split_and!; [done | done | done | done | done | done |].
  intros b row i tok Hb Hi. by eapply ne_mask_lookup.
Qed.

Lemma debug_prints_extends (self : value) labels t0 t1 r :
  debug_prints self labels t0 = (t1, r) -> exists extra, t1 = t0 ++ extra.
Proof.
  unfold debug_prints, bind.
  destruct (getattr self "debug" t0) as [t [dbg|e]] eqn:Hget;
    apply getattr_pure in Hget as [-> _].
  - destruct (truthy dbg).
    + rewrite prints_run. intros [= <- _]. eauto.
    + intros [= <- _]. exists []. by rewrite app_nil_r.
  - intros [= <- _]. exists []. by rewrite app_nil_r.
Qed.

(** X7.  For a prompt tensor with at least one row: the budget error with
    an unchanged log is raised exactly when the budget
    [min(max_tokens, max_sequence_length - prompt length)] is zero or
    less. *)
Theorem ActorModel_generate_budget_check
  c init (d cfg : gmap string value) temperature msl mt
  (states state_mask : tensor2 Z) tr :
  states <> [] ->
  d !! "config" = Some (VConfig cfg) ->
  cfg !! "temperature" = Some temperature ->
  cfg !! "max_sequence_length" = Some (VInt msl) ->
  cfg !! "max_tokens" = Some (VInt mt) ->
  ActorModel_generate (VObj c init d) states state_mask tr =
    (tr, Raise (ValueError budget_message)) <->
  max_completion_of mt msl (shape1 states) <= 0.
Proof.
  intros _ Hcfg Htemp Hmsl Hmt. split.
  - intros Hrun.
    destruct (Z.leb_spec (max_completion_of mt msl (shape1 states)) 0)
      as [Hle|Hpos]; [done|exfalso].
    unfold ActorModel_generate in Hrun.
    erewrite bind_ok in Hrun by (by apply getattr_obj).
    erewrite bind_ok in Hrun by (by apply getattr_config).
    erewrite bind_ok in Hrun by (by apply getattr_obj).
    erewrite bind_ok in Hrun by (by apply getattr_config).
    erewrite bind_ok in Hrun by (by apply getattr_obj).
    erewrite bind_ok in Hrun by (by apply getattr_config).
    erewrite bind_ok in Hrun by done.
    erewrite bind_ok in Hrun by done.
    rewrite (proj2 (Z.leb_gt _ _) Hpos) in Hrun.
    unfold bind at 1 in Hrun. unfold getattr in Hrun.
    destruct (d !! "model") as [model|]; [|discriminate].
    unfold ret in Hrun.
    destruct model; try discriminate.
    unfold call_generate, bind, emit, lift in Hrun.
    destruct (causal_generate _ _ _ _ _) as [sequences|e].
    + destruct (debug_prints _ _ _) as [t [[]|e]] eqn:Hprints;
        [discriminate|].
      apply debug_prints_extends in Hprints as [extra ->].
      injection Hrun as Htr _. apply (f_equal length) in Htr.
      rewrite !length_app in Htr. simpl in Htr. lia.
    + injection Hrun as Htr _. apply (f_equal length) in Htr.
      rewrite length_app in Htr. simpl in Htr. lia.
  - by eapply ActorModel_generate_budget_exhausted.
Qed.

(** *** The claims on rollout budget and shapes *)

Lemma ActorModel_generate_inv
  (self : value) states state_mask tr tr' actions sequences :
  ActorModel_generate self states state_mask tr =
    (tr', Ok (actions, sequences)) ->
  exists config temperature msl_v mt_v msl mt h,
    (forall t, getattr self "config" t = (t, Ok config)) /\
    (forall t, getattr config "temperature" t = (t, Ok temperature)) /\
    (forall t, getattr config "max_sequence_length" t = (t, Ok msl_v)) /\
    (forall t, getattr config "max_tokens" t = (t, Ok mt_v)) /\
    (forall t, as_int msl_v t = (t, Ok msl)) /\
    (forall t, as_int mt_v t = (t, Ok mt)) /\
    0 < max_completion_of mt msl (shape1 states) /\
    causal_generate h states state_mask temperature
      (shape1 states + max_completion_of mt msl (shape1 states)) =
      Ok sequences /\
    actions = slice_cols_from (shape1 states) sequences.
Proof.
  unfold ActorModel_generate. intros Hrun.
  apply bind_inv_ok in Hrun as (t0 & config & Hcfg & Hrun).
  apply getattr_pure in Hcfg as [-> Hcfg].
  apply bind_inv_ok in Hrun as (t0 & temperature & Htemp & Hrun).
  apply getattr_pure in Htemp as [-> Htemp].
  apply bind_inv_ok in Hrun as (t0 & config' & Hcfg' & Hrun).
  apply getattr_pure in Hcfg' as [-> Hcfg'].
  pose proof (Hcfg' []) as Hsame. rewrite Hcfg in Hsame. injection Hsame as <-.
  apply bind_inv_ok in Hrun as (t0 & msl_v & Hmsl & Hrun).
  apply getattr_pure in Hmsl as [-> Hmsl].
  apply bind_inv_ok in Hrun as (t0 & config'' & Hcfg'' & Hrun).
  apply getattr_pure in Hcfg'' as [-> Hcfg''].
  pose proof (Hcfg'' []) as Hsame. rewrite Hcfg in Hsame. injection Hsame as <-.
  apply bind_inv_ok in Hrun as (t0 & mt_v & Hmt & Hrun).
  apply getattr_pure in Hmt as [-> Hmt].
  apply bind_inv_ok in Hrun as (t0 & msl & Hmsl' & Hrun).
  apply as_int_pure in Hmsl' as [-> Hmsl'].
  apply bind_inv_ok in Hrun as (t0 & mt & Hmt' & Hrun).
  apply as_int_pure in Hmt' as [-> Hmt'].
  destruct (Z.leb_spec (max_completion_of mt msl (shape1 states)) 0)
    as [Hle|Hpos]; [discriminate|].
  apply bind_inv_ok in Hrun as (t0 & model & Hmodel & Hrun).
  apply bind_inv_ok in Hrun as (t1 & seqs & Hcall & Hrun).
  apply bind_inv_ok in Hrun as (t2 & [] & Hprints & Hrun).
  injection Hrun as _ <- <-.
  unfold call_generate in Hcall.
  destruct model as [| | | | | | | |h| | |]; try discriminate.
  apply bind_inv_ok in Hcall as (t3 & [] & _ & Hcall).
  unfold lift in Hcall. injection Hcall as _ Hcall.
  exists config, temperature, msl_v, mt_v, msl, mt, h. by split_and!.
Qed.

Lemma py_slice_from_app {A} (prompt rest : list A) :
  py_slice_from (Z.of_nat (length prompt)) (prompt ++ rest) = rest.
Proof.
  unfold py_slice_from. rewrite length_app.
  destruct (Z.ltb_spec (Z.of_nat (length prompt)) 0) as [Hneg|_]; [lia|].
  replace (Z.to_nat (Z.min (Z.of_nat (length prompt))
                       (Z.of_nat (length prompt + length rest))))
    with (length prompt) by lia.
  apply drop_app_length.
Qed.

(** C4.  For a prompt tensor [states] whose rows all have the length
    [states.shape[1]], over a sampler that extends its prompts within
    [max_length]: whenever [ActorCritic.generate] returns, there is an
    [action_len] between 0 and the actor's [config.max_tokens] such that
    [sequence] and [actions] have one row per prompt, every row of [actions]
    has length [action_len], and every row of [sequence] is its prompt
    followed by its row of [actions] (so it has length
    [states.shape[1] + action_len]). *)
Theorem rollout_shapes
  (self : value) states state_mask tr tr'
  actions actions_logits values sequence sequences_mask :
  Forall (fun prompt => Z.of_nat (length prompt) = shape1 states) states ->
  sampler_extends_prompt states state_mask ->
  ActorCritic_generate self states state_mask tr =
    (tr', Ok (actions, actions_logits, values, sequence, sequences_mask)) ->
  exists actor config max_tokens mt action_len,
    (forall t, getattr self "actor" t = (t, Ok actor)) /\
    (forall t, getattr actor "config" t = (t, Ok config)) /\
    (forall t, getattr config "max_tokens" t = (t, Ok max_tokens)) /\
    (forall t, as_int max_tokens t = (t, Ok mt)) /\
    0 <= action_len <= mt /\
    length sequence = length states /\
    length actions = length states /\
    forall b prompt,
      states !! b = Some prompt ->
      exists arow,
        actions !! b = Some arow /\
        Z.of_nat (length arow) = action_len /\
        sequence !! b = Some (prompt ++ arow).
Proof.
  intros Hrect Hsampler Hrun.
  destruct (ActorCritic_generate_inv _ _ _ _ _ _ _ _ _ _ Hrun)
    as (actor & _ & _ & _ & t1 & _ & Hactor & Hgen & _).
  destruct (ActorModel_generate_inv _ _ _ _ _ _ _ Hgen)
    as (config & temperature & msl_v & mt_v & msl & mt & h &
        Hcfg & _ & _ & Hmt & _ & Hmt' & Hpos & Hcall & ->).
  destruct (Hsampler h temperature
              (shape1 states + max_completion_of mt msl (shape1 states))
              sequence) as (width & Hwidth & Hrows);
    [lia | exact Hcall |].
  pose proof (Forall2_length _ _ _ Hrows) as Hlen.
  assert (Hbudget : max_completion_of mt msl (shape1 states) <= mt)
    by apply max_completion_of_le_max_tokens.
  assert (Hrow : forall b prompt, states !! b = Some prompt ->
            exists rest,
              sequence !! b = Some (prompt ++ rest) /\
              Z.of_nat (length rest) = width - shape1 states /\
              slice_cols_from (shape1 states) sequence !! b = Some rest).
  { intros b prompt Hb.
    destruct (Forall2_lookup_l _ _ _ _ _ Hrows Hb)
      as (row & Hrow & Hw & rest & ->).
    pose proof (Forall_lookup_1 _ _ _ _ Hrect Hb) as Hprompt. simpl in Hprompt.
    exists rest. split; [done|]. split.
    - rewrite length_app in Hw. lia.
    - rewrite (slice_cols_from_lookup _ _ _ _ Hrow), <- Hprompt.
      by rewrite py_slice_from_app. }
  exists actor, config, mt_v, mt,
    (match states with [] => 0 | _ => width - shape1 states end).
  split_and!; try done.
  - destruct states as [|prompt states']; [lia|].
    destruct (Hrow 0%nat prompt eq_refl) as (rest & _ & Hrest & _). lia.
  - destruct states as [|prompt states'].
    + unfold max_completion_of in Hpos. lia.
    + lia.
  - unfold slice_cols_from. by rewrite length_fmap.
  - intros b prompt Hb.
    destruct (Hrow b prompt Hb) as (rest & Hseq & Hrest & Hact).
    exists rest. destruct states; [by destruct b|]. by split_and!.
Qed.

(** C5.  On an object whose [config] holds integer [max_sequence_length] and
    [max_tokens], held fixed: the completion budget of lines 76-80 never
    grows when the prompt gets longer; [generate] acts on that budget,
    raising the [ValueError] of line 82 with the log unchanged whenever it
    is zero or less and otherwise, for a prompt tensor with a row, passing
    the sampler a [max_length] of prompt length plus budget; and for every
    prompt at least as long as [max_sequence_length] it raises that
    [ValueError]. *)
Theorem generate_budget_is_antitone
  c init (d cfg : gmap string value) temperature msl mt :
  d !! "config" = Some (VConfig cfg) ->
  cfg !! "temperature" = Some temperature ->
  cfg !! "max_sequence_length" = Some (VInt msl) ->
  cfg !! "max_tokens" = Some (VInt mt) ->
  (forall states1 states2 : tensor2 Z,
     shape1 states1 <= shape1 states2 ->
     max_completion_of mt msl (shape1 states2) <=
     max_completion_of mt msl (shape1 states1)) /\
  (forall (states state_mask : tensor2 Z) tr,
     max_completion_of mt msl (shape1 states) <= 0 ->
     ActorModel_generate (VObj c init d) states state_mask tr =
       (tr, Raise (ValueError budget_message))) /\
  (forall (states state_mask : tensor2 Z) tr h,
     states <> [] ->
     0 < max_completion_of mt msl (shape1 states) ->
     d !! "model" = Some (VPretrained h) ->
     d !! "debug" = Some (VBool false) ->
     exists outcome,
       ActorModel_generate (VObj c init d) states state_mask tr =
         (tr ++ [EvCausalGenerate h states state_mask
                   (shape1 states + max_completion_of mt msl (shape1 states))],
          outcome)) /\
  (forall (states state_mask : tensor2 Z) tr,
     msl <= shape1 states ->
     ActorModel_generate (VObj c init d) states state_mask tr =
       (tr, Raise (ValueError budget_message))).
Proof.
  intros Hcfg Htemp Hmsl Hmt. split_and!.
  - intros states1 states2 Hlen. by apply max_completion_of_antitone.
  - intros states state_mask tr Hle.
    by eapply ActorModel_generate_budget_exhausted.
  - intros states state_mask tr h _ Hpos Hmodel Hdbg.
    eexists. by eapply ActorModel_generate_samples.
  - intros states state_mask tr Hfull.
    eapply ActorModel_generate_budget_exhausted; eauto.
    by apply max_completion_of_exhausted.
Qed.

End Further.

(** ** Runs of the further properties on the demo objects *)

Lemma ActorModel_pad_token_is_eos_token_witness :
  exists loaded tok,
    AutoTokenizer_from_pretrained (Some "gpt2") [("padding_side", "left")] =
      Ok loaded /\
    (forall t, getattr demo_actor "tokenizer" t = (t, Ok (VTokenizer tok))) /\
    eos_token tok =
      match eos_token loaded with
      | Some token => Some token
      | None => convert_ids_to_tokens loaded 0
      end /\
    pad_token tok =
      match eos_token_id tok with
      | Some i => convert_ids_to_tokens loaded i
      | None => None
      end /\
    convert_ids_to_tokens tok = convert_ids_to_tokens loaded /\
    convert_tokens_to_ids tok = convert_tokens_to_ids loaded /\
    padding_side tok = padding_side loaded /\
    truncation_side tok = truncation_side loaded /\
    (forall token i,
       eos_token tok = Some token ->
       convert_tokens_to_ids loaded token = Some i ->
       convert_ids_to_tokens loaded i = Some token ->
       pad_token tok = Some token /\
       eos_token_id tok = Some i /\ pad_token_id tok = Some i).
Proof.
  apply (ActorModel_pad_token_is_eos_token (Some "gpt2") false []
           [EvLoadTokenizer (Some "gpt2"); EvLoadCausalLM (Some "gpt2")]
           demo_actor).
  vm_compute. reflexivity.
Defined.

Lemma eos_pad_setup_uniform_witness :
  exists self1 self2 out1 out2,
    eos_pad_setup
      (VObj ActorModelC true (<["tokenizer" := VTokenizer padded_tokenizer]> ∅))
      [] = ([], Ok self1) /\
    eos_pad_setup
      (VObj CriticModelC false (<["tokenizer" := VTokenizer bare_tokenizer]> ∅))
      [] = ([], Ok self2) /\
    self_tokenizer self1 [] = ([], Ok out1) /\
    self_tokenizer self2 [] = ([], Ok out2) /\
    eos_token out1 = eos_token out2 /\
    eos_token_id out1 = eos_token_id out2 /\
    pad_token out1 = pad_token out2 /\
    pad_token_id out1 = pad_token_id out2.
Proof.
  apply (eos_pad_setup_uniform (scalar := Z)
           ActorModelC true (<["tokenizer" := VTokenizer padded_tokenizer]> ∅)
           CriticModelC false (<["tokenizer" := VTokenizer bare_tokenizer]> ∅)
           padded_tokenizer bare_tokenizer [] []);
    reflexivity.
Defined.

Lemma eos_pad_setup_idempotent_witness :
  exists self,
    eos_pad_setup
      (VObj ActorModelC true (<["tokenizer" := VTokenizer padded_tokenizer]> ∅))
      [] = ([], Ok self) /\
    eos_pad_setup self [] = ([], Ok self).
Proof.
  apply (eos_pad_setup_idempotent (scalar := Z)
           ActorModelC true (<["tokenizer" := VTokenizer padded_tokenizer]> ∅)
           padded_tokenizer []).
  vm_compute. reflexivity.
Defined.

Lemma CriticModel_init_reaches_Rearrange_witness :
  CriticModel___init__ (VObj CriticModelC true ∅) (Some "gpt2") true [] =
    ([EvLoadTokenizer (Some "gpt2"); EvLoadEncoder (Some "gpt2")],
     Raise (NameError "Rearrange")).
Proof.
  apply (CriticModel_init_reaches_Rearrange (Some "gpt2") true
           (demo_tokenizer [("padding_side", "left"); ("truncation_side", "left")])
           2%nat (VInt 8) 3%nat 4%nat 3%nat []);
    reflexivity.
Defined.

Lemma ActorModel_generate_budget_check_witness :
  [replicate 25 1] <> [] /\
  (ActorModel_generate demo_actor_with_config
     [replicate 25 1] [replicate 25 1] [] =
     ([], Raise (ValueError budget_message)) <->
   max_completion_of 2 20 (shape1 [replicate 25 1]) <= 0).
Proof.
  split; [discriminate|].
  apply (ActorModel_generate_budget_check ActorModelC true
           (demo_attrs demo_actor_with_config) (demo_attrs demo_config)
           (VInt 1) 20 2 [replicate 25 1] [replicate 25 1] []);
    try discriminate; vm_compute; reflexivity.
Defined.

Lemma ActorModel_generate_rejects_full_prompt_witness :
  (20 <= shape1 [replicate 20 1] \/ 2 <= 0) /\
  ActorModel_generate demo_actor_with_config
    [replicate 20 1] [replicate 20 1] [] =
    ([], Raise (ValueError budget_message)).
Proof.
  split; [left; vm_compute; discriminate|].
  apply (ActorModel_generate_rejects_full_prompt ActorModelC true
           (demo_attrs demo_actor_with_config) (demo_attrs demo_config)
           (VInt 1) 20 2 [replicate 20 1] [replicate 20 1] []);
    try (vm_compute; reflexivity).
  left. vm_compute. discriminate.
Defined.

Lemma ActorModel_generate_rejects_longer_prompts_witness :
  max_completion_of 2 20 (shape1 [replicate 20 1]) <= 0 /\
  shape1 [replicate 20 1] <= shape1 [replicate 23 1; replicate 23 2] /\
  ActorModel_generate demo_actor_with_config
    [replicate 23 1; replicate 23 2] [replicate 23 1; replicate 23 1] [] =
    ([], Raise (ValueError budget_message)).
Proof.
  split; [vm_compute; discriminate|].
  split; [vm_compute; discriminate|].
  apply (ActorModel_generate_rejects_longer_prompts ActorModelC true
           (demo_attrs demo_actor_with_config) (demo_attrs demo_config)
           (VInt 1) 20 2 [replicate 20 1] [replicate 23 1; replicate 23 2]
           [replicate 23 1; replicate 23 1] []);
    try (vm_compute; reflexivity); vm_compute; discriminate.
Defined.

Lemma ActorModel_generate_sampler_call_witness :
  exists max_length,
    shape1 [[0; 5; 6]] < max_length /\
    max_length <= 20 /\
    max_length <= shape1 [[0; 5; 6]] + 2 /\
    ActorModel_generate demo_actor_with_config [[0; 5; 6]] [[0; 1; 1]] [] =
      ([] ++ [EvCausalGenerate 1%nat [[0; 5; 6]] [[0; 1; 1]] max_length],
       match causal_generate 1%nat [[0; 5; 6]] [[0; 1; 1]] (VInt 1) max_length with
       | Ok sequences =>
           Ok (slice_cols_from (shape1 [[0; 5; 6]]) sequences, sequences)
       | Raise e => Raise e
       end).
Proof.
  apply (ActorModel_generate_sampler_call ActorModelC true
           (demo_attrs demo_actor_with_config) (demo_attrs demo_config)
           (VInt 1) 20 2 1%nat [[0; 5; 6]] [[0; 1; 1]] []);
    try discriminate; vm_compute; reflexivity.
Defined.

Lemma ActorModel_generate_actions_are_suffix_witness :
  ActorModel_generate demo_actor_with_config [[0; 5; 6]] [[0; 1; 1]] [] =
    ([EvCausalGenerate 1%nat [[0; 5; 6]] [[0; 1; 1]] 5],
     Ok ([[7; 7]], [[0; 5; 6; 7; 7]])) /\
  length [[7; 7]] = length [[0; 5; 6; 7; 7]] /\
  forall b row,
    [[0; 5; 6; 7; 7]] !! b = Some row ->
    exists arow,
      [[7; 7]] !! b = Some arow /\
      take (Z.to_nat (shape1 [[0; 5; 6]])) row ++ arow = row.
Proof.
  split; [vm_compute; reflexivity|].
  apply (ActorModel_generate_actions_are_suffix demo_actor_with_config
           [[0; 5; 6]] [[0; 1; 1]] []
           [EvCausalGenerate 1%nat [[0; 5; 6]] [[0; 1; 1]] 5]
           [[7; 7]] [[0; 5; 6; 7; 7]]).
  vm_compute. reflexivity.
Defined.

Lemma CriticModel_forward_outcome_witness :
  CriticModel_forward demo_critic [[5; 6; 7]] [[1; 1; 1]] [] =
    match encoder_forward 2%nat [[5; 6; 7]] [[1; 1; 1]] with
    | Raise e => ([] ++ [EvEncoderForward 2%nat [[5; 6; 7]] [[1; 1; 1]]], Raise e)
    | Ok hidden =>
        match sequential_forward [3; 4; 3; 5]%nat hidden with
        | Raise e =>
            ([] ++ [EvEncoderForward 2%nat [[5; 6; 7]] [[1; 1; 1]];
                    EvValueHead [3; 4; 3; 5]%nat], Raise e)
        | Ok rewards =>
            ([] ++ [EvEncoderForward 2%nat [[5; 6; 7]] [[1; 1; 1]];
                    EvValueHead [3; 4; 3; 5]%nat] ++
               (if false then EvPrint <$> CriticModel_forward_labels else []),
             Ok rewards)
        end
    end.
Proof.
  apply (CriticModel_forward_outcome CriticModelC true (demo_attrs demo_critic)
           2%nat [3; 4; 3; 5]%nat false [[5; 6; 7]] [[1; 1; 1]] []);
    vm_compute; reflexivity.
Defined.

Lemma CriticModel_get_reward_last_position_witness :
  CriticModel_get_reward demo_critic [[5; 6; 7]; [1; 2; 3]]
    [[1; 1; 1]; [1; 1; 1]] [] =
    ([EvEncoderForward 2%nat [[5; 6; 7]; [1; 2; 3]] [[1; 1; 1]; [1; 1; 1]];
      EvValueHead [3; 4; 3; 5]%nat], Ok [7; 3]) /\
  exists rewards,
    CriticModel_forward demo_critic [[5; 6; 7]; [1; 2; 3]]
      [[1; 1; 1]; [1; 1; 1]] [] =
      ([EvEncoderForward 2%nat [[5; 6; 7]; [1; 2; 3]] [[1; 1; 1]; [1; 1; 1]];
        EvValueHead [3; 4; 3; 5]%nat], Ok rewards) /\
    length [7; 3] = length rewards /\
    (forall b row, rewards !! b = Some row ->
       exists x, [7; 3] !! b = Some x /\ last row = Some x) /\
    slice_cols_from (-1) rewards = (fun x => [x]) <$> [7; 3].
Proof.
  split; [vm_compute; reflexivity|].
  apply (CriticModel_get_reward_last_position demo_critic
           [[5; 6; 7]; [1; 2; 3]] [[1; 1; 1]; [1; 1; 1]] []).
  vm_compute. reflexivity.
Defined.

Lemma CriticModel_get_reward_empty_sequence_witness :
  CriticModel_forward demo_critic [[]] [[]] [] =
    ([EvEncoderForward 2%nat [[]] [[]]; EvValueHead [3; 4; 3; 5]%nat],
     Ok [[]]) /\
  CriticModel_get_reward demo_critic [[]] [[]] [] =
    ([EvEncoderForward 2%nat [[]] [[]]; EvValueHead [3; 4; 3; 5]%nat],
     Raise IndexError).
Proof.
  split; [vm_compute; reflexivity|].
  apply (CriticModel_get_reward_empty_sequence demo_critic [[]] [[]] []
           [EvEncoderForward 2%nat [[]] [[]]; EvValueHead [3; 4; 3; 5]%nat]
           [[]]).
  - vm_compute. reflexivity.
  - apply list_elem_of_here.
Defined.

Lemma ActorCritic_forward_last_positions_witness :
  exists real_logits real_values,
    ActorCritic_forward demo_pair_bound [[5; 6; 7; 8]] [[1; 1; 1; 1]] 2 [] =
      ([EvCausalForward 1%nat [[5; 6; 7; 8]] [[1; 1; 1; 1]];
        EvEncoderForward 2%nat [[5; 6; 7; 8]] [[1; 1; 1; 1]];
        EvValueHead [3; 4; 3; 5]%nat],
       Ok (real_logits, real_values)) /\
    length real_logits = length [[[5; 6]; [6; 7]; [7; 8]; [8; 9]]] /\
    length real_values = length [[5; 6; 7; 8]] /\
    (forall b row, [[[5; 6]; [6; 7]; [7; 8]; [8; 9]]] !! b = Some row ->
       real_logits !! b = Some (drop (length row - Z.to_nat 2) row) /\
       Z.of_nat (length (drop (length row - Z.to_nat 2) row)) = 2) /\
    (forall b row, [[5; 6; 7; 8]] !! b = Some row ->
       real_values !! b = Some (drop (length row - Z.to_nat 2) row) /\
       Z.of_nat (length (drop (length row - Z.to_nat 2) row)) = 2).
Proof.
  apply (ActorCritic_forward_last_positions true (demo_attrs demo_pair_bound)
           (demo_attrs demo_actor_with_config) (demo_attrs demo_critic) true
           [[5; 6; 7; 8]] [[1; 1; 1; 1]] 2 []
           [EvCausalForward 1%nat [[5; 6; 7; 8]] [[1; 1; 1; 1]]]
           [EvCausalForward 1%nat [[5; 6; 7; 8]] [[1; 1; 1; 1]];
            EvEncoderForward 2%nat [[5; 6; 7; 8]] [[1; 1; 1; 1]];
            EvValueHead [3; 4; 3; 5]%nat]
           [[[5; 6]; [6; 7]; [7; 8]; [8; 9]]] [[5; 6; 7; 8]]);
    try (vm_compute; reflexivity);
    repeat constructor; vm_compute; discriminate.
Defined.

Lemma ActorCritic_forward_action_len_edge_witness :
  ActorCritic_forward demo_pair_bound [[5; 6; 7; 8]] [[1; 1; 1; 1]] 0 [] =
    ([EvCausalForward 1%nat [[5; 6; 7; 8]] [[1; 1; 1; 1]];
      EvEncoderForward 2%nat [[5; 6; 7; 8]] [[1; 1; 1; 1]];
      EvValueHead [3; 4; 3; 5]%nat],
     Ok ([[[5; 6]; [6; 7]; [7; 8]; [8; 9]]], [[5; 6; 7; 8]])).
Proof.
  apply (ActorCritic_forward_action_len_edge true (demo_attrs demo_pair_bound)
           (demo_attrs demo_actor_with_config) (demo_attrs demo_critic) true
           [[5; 6; 7; 8]] [[1; 1; 1; 1]] 0 []
           [EvCausalForward 1%nat [[5; 6; 7; 8]] [[1; 1; 1; 1]]]);
    try (vm_compute; reflexivity).
  by left.
Defined.

Lemma ActorCritic_forward_negative_action_len_witness :
  ActorCritic_forward demo_pair_bound [[5; 6; 7; 8]] [[1; 1; 1; 1]]
    (- Z.of_nat 1) [] =
    ([EvCausalForward 1%nat [[5; 6; 7; 8]] [[1; 1; 1; 1]];
      EvEncoderForward 2%nat [[5; 6; 7; 8]] [[1; 1; 1; 1]];
      EvValueHead [3; 4; 3; 5]%nat],
     Ok (drop 1 <$> [[[5; 6]; [6; 7]; [7; 8]; [8; 9]]],
         drop 1 <$> [[5; 6; 7; 8]])).
Proof.
  apply (ActorCritic_forward_negative_action_len true
           (demo_attrs demo_pair_bound)
           (demo_attrs demo_actor_with_config) (demo_attrs demo_critic) true
           [[5; 6; 7; 8]] [[1; 1; 1; 1]] 1 []
           [EvCausalForward 1%nat [[5; 6; 7; 8]] [[1; 1; 1; 1]]]);
    vm_compute; reflexivity.
Defined.

Lemma ActorCritic_forward_without_critic_witness :
  ActorCritic_forward demo_pair_no_critic [[5; 6; 7; 8]] [[1; 1; 1; 1]] 2 [] =
    ([EvCausalForward 1%nat [[5; 6; 7; 8]] [[1; 1; 1; 1]]],
     Raise AttributeError).
Proof.
  apply (ActorCritic_forward_without_critic true
           (demo_attrs demo_pair_no_critic)
           (demo_attrs demo_actor_with_config)
           [[5; 6; 7; 8]] [[1; 1; 1; 1]] 2 []
           [EvCausalForward 1%nat [[5; 6; 7; 8]] [[1; 1; 1; 1]]]
           [[[5; 6]; [6; 7]; [7; 8]; [8; 9]]]);
    vm_compute; reflexivity.
Defined.

Lemma ActorCritic_forward_actor_error_witness :
  @ActorCritic_forward Z strict_lib demo_pair_bound
    [[11; 12; 13]; [21; 22; 23]] [[1; 1; 1]] 2 [] =
    ([] ++ [EvCausalForward 1%nat [[11; 12; 13]; [21; 22; 23]] [[1; 1; 1]]],
     Raise (LibraryError "mask and input_ids differ in shape")).
Proof.
  apply (@ActorCritic_forward_actor_error Z strict_lib true
           (demo_attrs demo_pair_bound) (demo_attrs demo_actor_with_config)
           1%nat [[11; 12; 13]; [21; 22; 23]] [[1; 1; 1]] 2 []);
    vm_compute; reflexivity.
Defined.

Lemma ActorCritic_generate_composition_witness :
  exists actor tokenizer pad p t1 t2,
    (forall t, getattr demo_pair_bound "actor" t = (t, Ok actor)) /\
    ActorModel_generate actor [[0; 5; 6]] [[0; 1; 1]] [] =
      (t1, Ok ([[7; 7]], [[0; 5; 6; 7; 7]])) /\
    (forall t, getattr actor "tokenizer" t = (t, Ok tokenizer)) /\
    (forall t, getattr tokenizer "pad_token_id" t = (t, Ok pad)) /\
    as_int pad t1 = (t1, Ok p) /\
    [[0; 1; 1; 1; 1]] = ne_mask p [[0; 5; 6; 7; 7]] /\
    ActorCritic_forward demo_pair_bound [[0; 5; 6; 7; 7]] [[0; 1; 1; 1; 1]]
      (shape1 [[7; 7]]) t1 = (t2, Ok ([[[7; 8]; [7; 8]]], [[7; 7]])).
Proof.
  apply (ActorCritic_generate_composition demo_pair_bound
           [[0; 5; 6]] [[0; 1; 1]] []
           [EvCausalGenerate 1%nat [[0; 5; 6]] [[0; 1; 1]] 5;
            EvCausalForward 1%nat [[0; 5; 6; 7; 7]] [[0; 1; 1; 1; 1]];
            EvEncoderForward 2%nat [[0; 5; 6; 7; 7]] [[0; 1; 1; 1; 1]];
            EvValueHead [3; 4; 3; 5]%nat]).
  vm_compute. reflexivity.
Defined.

Lemma rollout_mask_agrees_with_pad_witness :
  exists actor tokenizer pad pad_token_id,
    (forall t, getattr demo_pair_bound "actor" t = (t, Ok actor)) /\
    (forall t, getattr actor "tokenizer" t = (t, Ok tokenizer)) /\
    (forall t, getattr tokenizer "pad_token_id" t = (t, Ok pad)) /\
    (forall t, as_int pad t = (t, Ok pad_token_id)) /\
    shape0 [[0; 1; 1; 1; 1]] = shape0 [[0; 5; 6; 7; 7]] /\
    shape1 [[0; 1; 1; 1; 1]] = shape1 [[0; 5; 6; 7; 7]] /\
    forall b row i tok,
      [[0; 5; 6; 7; 7]] !! b = Some row ->
      row !! i = Some tok ->
      exists mrow m,
        [[0; 1; 1; 1; 1]] !! b = Some mrow /\ mrow !! i = Some m /\
        (m = 1 <-> tok <> pad_token_id) /\ (m = 0 \/ m = 1).
Proof.
  apply (rollout_mask_agrees_with_pad demo_pair_bound
           [[0; 5; 6]] [[0; 1; 1]] []
           [EvCausalGenerate 1%nat [[0; 5; 6]] [[0; 1; 1]] 5;
            EvCausalForward 1%nat [[0; 5; 6; 7; 7]] [[0; 1; 1; 1; 1]];
            EvEncoderForward 2%nat [[0; 5; 6; 7; 7]] [[0; 1; 1; 1; 1]];
            EvValueHead [3; 4; 3; 5]%nat]
           [[7; 7]] [[[7; 8]; [7; 8]]] [[7; 7]]).
  vm_compute. reflexivity.
Defined.

Lemma demo_sampler_extends_prompt :
  sampler_extends_prompt [[0; 5; 6]] [[0; 1; 1]].
Proof.
  intros h temperature max_length sequences Hlt Hcall.
  simpl in Hlt, Hcall. injection Hcall as <-.
  exists max_length. split; [lia|].
  constructor; [|constructor]. split.
  - simpl. rewrite length_replicate. simpl in Hlt. lia.
  - by eexists.
Qed.

Lemma rollout_shapes_witness :
  exists actor config max_tokens mt action_len,
    (forall t, getattr demo_pair_bound "actor" t = (t, Ok actor)) /\
    (forall t, getattr actor "config" t = (t, Ok config)) /\
    (forall t, getattr config "max_tokens" t = (t, Ok max_tokens)) /\
    (forall t, as_int max_tokens t = (t, Ok mt)) /\
    0 <= action_len <= mt /\
    length [[0; 5; 6; 7; 7]] = length [[0; 5; 6]] /\
    length [[7; 7]] = length [[0; 5; 6]] /\
    forall b prompt,
      [[0; 5; 6]] !! b = Some prompt ->
      exists arow,
        [[7; 7]] !! b = Some arow /\
        Z.of_nat (length arow) = action_len /\
        [[0; 5; 6; 7; 7]] !! b = Some (prompt ++ arow).
Proof.
  apply (rollout_shapes demo_pair_bound [[0; 5; 6]] [[0; 1; 1]] []
           [EvCausalGenerate 1%nat [[0; 5; 6]] [[0; 1; 1]] 5;
            EvCausalForward 1%nat [[0; 5; 6; 7; 7]] [[0; 1; 1; 1; 1]];
            EvEncoderForward 2%nat [[0; 5; 6; 7; 7]] [[0; 1; 1; 1; 1]];
            EvValueHead [3; 4; 3; 5]%nat]
           [[7; 7]] [[[7; 8]; [7; 8]]] [[7; 7]]
           [[0; 5; 6; 7; 7]] [[0; 1; 1; 1; 1]]).
  - repeat constructor.
  - exact demo_sampler_extends_prompt.
  - vm_compute. reflexivity.
Defined.

Lemma generate_budget_is_antitone_witness :
  (forall states1 states2 : tensor2 Z,
     shape1 states1 <= shape1 states2 ->
     max_completion_of 2 20 (shape1 states2) <=
     max_completion_of 2 20 (shape1 states1)) /\
  (forall (states state_mask : tensor2 Z) tr,
     max_completion_of 2 20 (shape1 states) <= 0 ->
     ActorModel_generate demo_actor_with_config states state_mask tr =
       (tr, Raise (ValueError budget_message))) /\
  (forall (states state_mask : tensor2 Z) tr h,
     states <> [] ->
     0 < max_completion_of 2 20 (shape1 states) ->
     demo_attrs demo_actor_with_config !! "model" = Some (VPretrained h) ->
     demo_attrs demo_actor_with_config !! "debug" = Some (VBool false) ->
     exists outcome,
       ActorModel_generate demo_actor_with_config states state_mask tr =
         (tr ++ [EvCausalGenerate h states state_mask
                   (shape1 states + max_completion_of 2 20 (shape1 states))],
          outcome)) /\
  (forall (states state_mask : tensor2 Z) tr,
     20 <= shape1 states ->
     ActorModel_generate demo_actor_with_config states state_mask tr =
       (tr, Raise (ValueError budget_message))).
Proof.
  apply (generate_budget_is_antitone ActorModelC true
           (demo_attrs demo_actor_with_config) (demo_attrs demo_config)
           (VInt 1) 20 2);
    vm_compute; reflexivity.
Defined.
